(** * Thermostat-NTC: the NTC sensor and the thermostat program

    A shallow embedding of [lib/NTCSensor/NTCSensor.{h,cpp}],
    [lib/NTCSensor/SensorData.h] and [src/main.cpp], and of the setup and
    the read of [test/saved/BME280Sensor/BME280Sensor.cpp].

    The C++ code computes in [double] and stores the three temperatures in
    [float] members.  The embedding is written once, over an interface
    [Arith] of the arithmetic the code uses.  The arithmetic of the code is
    [float_arith]: IEEE 754 binary64 (Rocq's primitive floats), stores to a
    [float] member round to binary32, [exp] and [log] are those of a
    [Libm].  Statements about what the code computes are made in
    [float_arith], or for every [Arith].  A second instance, [real_arith],
    reads the same definitions over the real numbers; it says which
    formulas the members hold, not which numbers the code stores. *)

From Stdlib Require Import ZArith QArith Qreals Reals Lra Lia Floats List Bool.
Import ListNotations.

(** ** The arithmetic used by the code *)

Class Arith (F : Type) : Type := {
  fadd : F -> F -> F;
  fsub : F -> F -> F;
  fmul : F -> F -> F;
  fdiv : F -> F -> F;
  fopp : F -> F;
  fexp : F -> F;            (* exp() of <math.h> *)
  flog : F -> F;            (* log() of <math.h> *)
  of_int : Z -> F;          (* conversion of an integer to double *)
  lit : Q -> F;             (* value of a decimal literal such as 9.0 *)
  to_float : F -> F;        (* value held by a [float] object a double is stored in *)
  fltb : F -> F -> bool;    (* x < y *)
  fleb : F -> F -> bool     (* x <= y *)
}.

Arguments lit {F _} q%_Q.
Arguments of_int {F _} z%_Z.

Declare Scope arith_scope.
Delimit Scope arith_scope with A.
Infix "+" := fadd : arith_scope.
Infix "-" := fsub : arith_scope.
Infix "*" := fmul : arith_scope.
Infix "/" := fdiv : arith_scope.
Notation "- x" := (fopp x) : arith_scope.
Infix "<?" := fltb : arith_scope.
Infix "<=?" := fleb : arith_scope.

(** *** Exact real arithmetic

    An idealisation: no rounding, [float] members hold any real.  It is
    used to read the members of the record as formulas; a value computed in
    it is not the value the code stores. *)

Definition real_arith : Arith R := {|
  fadd := Rplus;
  fsub := Rminus;
  fmul := Rmult;
  fdiv := Rdiv;
  fopp := Ropp;
  fexp := exp;
  flog := ln;
  of_int := IZR;
  lit := Q2R;
  to_float := fun x => x;
  fltb := fun x y => if Rlt_dec x y then true else false;
  fleb := fun x y => if Rle_dec x y then true else false
|}.
#[global] Existing Instance real_arith.

(** *** IEEE 754 binary64, with binary32 stores *)

(** [exp] and [log] come from the C library of the target; they are not part
    of the repository and are taken as a parameter. *)
Record Libm : Type := {
  m_exp : float -> float;
  m_log : float -> float
}.

(** The results the C standard (Annex F.10.3) fixes exactly:
    [log(1)] is [+0] and [exp(+-0)] is [1]. *)
Definition libm_exact (lm : Libm) : Prop :=
  m_log lm 1%float = 0%float /\
  m_exp lm 0%float = 1%float /\
  m_exp lm (-0)%float = 1%float.

Definition float_of_int (z : Z) : float :=
  match z with
  | Z0 => 0%float
  | Zpos _ => PrimFloat.of_uint63 (Uint63.of_Z z)
  | Zneg p => (- PrimFloat.of_uint63 (Uint63.of_Z (Zpos p)))%float
  end.

(** A decimal literal denotes the double nearest to it: numerator and
    denominator are exact doubles and the division rounds once. *)
Definition float_of_Q (q : Q) : float :=
  (float_of_int (Qnum q) / float_of_int (Zpos (Qden q)))%float.

(** Conversion double -> float -> double: round to nearest even in binary32
    (24 bits of precision, largest exponent 128). *)
Definition double_to_float (x : float) : float :=
  match Prim2SF x with
  | S754_finite s m e =>
      SF2Prim (binary_normalize 24 128 (cond_Zopp s (Zpos m)) e s)
  | _ => x
  end.

Definition float_arith (lm : Libm) : Arith float := {|
  fadd := PrimFloat.add;
  fsub := PrimFloat.sub;
  fmul := PrimFloat.mul;
  fdiv := PrimFloat.div;
  fopp := PrimFloat.opp;
  fexp := m_exp lm;
  flog := m_log lm;
  of_int := float_of_int;
  lit := float_of_Q;
  to_float := double_to_float;
  fltb := PrimFloat.ltb;
  fleb := PrimFloat.leb
|}.

(** *** A reference libm, to run the model on concrete samples

    [exp] by scaling and squaring of a Taylor polynomial (relative error
    about 1e-13), [log] by [frexp] and the series of
    [2 atanh ((m-1)/(m+1))].  Both return the exact results of
    [libm_exact].  The theorems about [float_arith] hold for every [Libm];
    this one only instantiates them. *)
Module RefLibm.
Open Scope float_scope.

Definition horner (cs : list float) (x : float) : float :=
  fold_right (fun c acc => c + x * acc) 0 cs.

Fixpoint inv_factorials (n : nat) (i : Z) (acc : float) : list float :=
  match n with
  | O => []
  | S n' => acc :: inv_factorials n' (i + 1) (acc / float_of_int (i + 1))
  end.

Fixpoint square_n (n : nat) (x : float) : float :=
  match n with
  | O => x
  | S n' => square_n n' (x * x)
  end.

Definition exp (x : float) : float :=
  if PrimFloat.is_nan x then nan
  else if x <? -746 then 0
  else if 710 <? x then infinity
  else square_n 10 (horner (inv_factorials 18 0 1) (x / 1024)).

Definition ln2 : float := 0x1.62e42fefa39efp-1.
Definition sqrt_half : float := 0x1.6a09e667f3bcdp-1.

Fixpoint odd_inverses (n : nat) (i : Z) : list float :=
  match n with
  | O => []
  | S n' => (1 / float_of_int i) :: odd_inverses n' (i + 2)
  end.

Definition log (x : float) : float :=
  if PrimFloat.is_nan x then nan
  else if x <? 0 then nan
  else if x =? 0 then neg_infinity
  else if PrimFloat.is_infinity x then infinity
  else
    let (m, e) := Z.frexp x in
    let (m, e) := if m <? sqrt_half then (2 * m, (e - 1)%Z) else (m, e) in
    let s := (m - 1) / (m + 1) in
    float_of_int e * ln2 + 2 * s * horner (odd_inverses 14 1) (s * s).

Definition libm : Libm := {| m_exp := exp; m_log := log |}.
End RefLibm.

(** ** lib/NTCSensor: parameters, measurement record, sensor *)

(** [uint8_t] and [uint16_t] members are integers, the latter of this
    range; the code does no arithmetic on them, it only converts them to
    [double]. *)
Definition is_uint16 (z : Z) : Prop := (0 <= z < 65536)%Z.

(** [struct parmsNtc { uint16_t Rs; uint16_t Ro; uint16_t beta; }] *)
Record ParamsNTC : Type := mkParamsNTC {
  Rs : Z;
  Ro : Z;
  beta : Z
}.

Inductive adc_attenuation_t : Type := ADC_0db | ADC_2_5db | ADC_6db | ADC_11db.

(** [struct parmsAdc { uint8_t pin; bool ntcToGround; uint16_t Amax;
    adc_attenuation_t att; double Vcc; double Vref; double Voff; }] *)
Record ParamsADC (F : Type) : Type := mkParamsADC {
  pin : Z;
  ntcToGround : bool;
  Amax : Z;
  att : adc_attenuation_t;
  Vcc : F;
  Vref : F;
  Voff : F
}.
Arguments mkParamsADC {F}.
Arguments pin {F}.
Arguments ntcToGround {F}.
Arguments Amax {F}.
Arguments att {F}.
Arguments Vcc {F}.
Arguments Vref {F}.
Arguments Voff {F}.

(** [struct sDat] of SensorData.h.  The members [To] and [Tabs] are [const]
    with default initialisers, so every record holds the same two values:
    they are the constant projections [To] and [Tabs] below. *)
Record SensorData (F : Type) : Type := mkSensorData {
  tCelsius : F;       (* float *)
  tFahrenheit : F;    (* float *)
  tKelvin : F;        (* float *)
  Roo : F;            (* resistance for T --> oo *)
  k : F;
  v : F;
  vin : F;            (* input voltage on ADC-pin *)
  Rt : F;             (* calculated resistance at temperature T *)
  analogValue : Z;    (* uint16_t *)
  sensorPin : Z       (* uint8_t *)
}.
Arguments mkSensorData {F}.
Arguments tCelsius {F}.
Arguments tFahrenheit {F}.
Arguments tKelvin {F}.
Arguments Roo {F}.
Arguments k {F}.
Arguments v {F}.
Arguments vin {F}.
Arguments Rt {F}.
Arguments analogValue {F}.
Arguments sensorPin {F}.

(** The sensor holds references to the two parameter structs and to the
    measurement record of the program; the three objects have no other
    writer in the modelled code, so the sensor state carries them. *)
Record NTCSensor (F : Type) : Type := mkNTCSensor {
  _ntc : ParamsNTC;
  _adc : ParamsADC F;
  _sData : SensorData F
}.
Arguments mkNTCSensor {F}.
Arguments _ntc {F}.
Arguments _adc {F}.
Arguments _sData {F}.

(** What [printData] hands to [Serial.printf], in the order of the format. *)
Record DataLine (F : Type) : Type := mkDataLine {
  p_analogValue : Z;
  p_v : F;
  p_vin : F;
  p_k : F;
  p_Rt : F;
  p_tCelsius : F;
  p_tFahrenheit : F;
  p_tKelvin : F
}.
Arguments mkDataLine {F}.
Arguments p_analogValue {F}.
Arguments p_v {F}.
Arguments p_vin {F}.
Arguments p_k {F}.
Arguments p_Rt {F}.
Arguments p_tCelsius {F}.
Arguments p_tFahrenheit {F}.
Arguments p_tKelvin {F}.

Section Sensor.
Context {F : Type} {AF : Arith F}.
Local Open Scope arith_scope.

(** [const double To = 25.0;  const double Tabs = -273.15;] *)
Definition To (d : SensorData F) : F := lit 25.
Definition Tabs (d : SensorData F) : F := lit (-273.15).

(** A [SensorData] object of static storage: zero-initialised members. *)
Definition sensorData0 : SensorData F :=
  mkSensorData (lit 0) (lit 0) (lit 0) (lit 0) (lit 0) (lit 0) (lit 0)
               (lit 0) 0%Z 0%Z.

Definition set_Roo (x : F) (d : SensorData F) : SensorData F :=
  mkSensorData (tCelsius d) (tFahrenheit d) (tKelvin d) x (k d) (v d)
               (vin d) (Rt d) (analogValue d) (sensorPin d).

Definition set_sensorPin (p : Z) (d : SensorData F) : SensorData F :=
  mkSensorData (tCelsius d) (tFahrenheit d) (tKelvin d) (Roo d) (k d) (v d)
               (vin d) (Rt d) (analogValue d) p.

(** [_ntc.Ro * exp(-(double)_ntc.beta / (_sData.To - _sData.Tabs))] *)
Definition calc_Roo (ntc : ParamsNTC) (d : SensorData F) : F :=
  of_int (Ro ntc) * fexp (- of_int (beta ntc) / (To d - Tabs d)).

(** The constructor of NTCSensor.h ([pinMode] and [analogSetAttenuation]
    configure the pin and leave the three objects alone). *)
Definition NTCSensor_new (ntc : ParamsNTC) (adc : ParamsADC F)
    (sensorData : SensorData F) : NTCSensor F :=
  mkNTCSensor ntc adc (set_Roo (calc_Roo ntc sensorData) sensorData).

(** [NTCSensor::readSensor]; [raw] is the value [analogRead(_adc.pin)]
    returns ([uint16_t]). *)
Definition readSensor (raw : Z) (s : NTCSensor F) : NTCSensor F :=
  let ntc := _ntc s in
  let adc := _adc s in
  let d := _sData s in
  let analogValue' := raw in
  let v' := (Vref adc - Voff adc) / of_int (Amax adc) in
  let vin' := (of_int analogValue' * v') + Voff adc in
  let k0 := vin' / (Vcc adc - vin') in
  let k' := if negb (ntcToGround adc) then lit 1 / k0 else k0 in
  let Rt' := of_int (Rs ntc) * k' in
  let tKelvin' := to_float (of_int (beta ntc) / flog (Rt' / Roo d)) in
  let tCelsius' := to_float (tKelvin' + Tabs d) in
  let tFahrenheit' := to_float (tCelsius' * lit 9 / lit 5 + lit 32) in
  mkNTCSensor ntc adc
    (mkSensorData tCelsius' tFahrenheit' tKelvin' (Roo d) k' v' vin' Rt'
                  analogValue' (sensorPin d)).

(** [NTCSensor::setup]: pin configuration, [Roo], [delay(1000)], one read. *)
Definition setup (raw : Z) (s : NTCSensor F) : NTCSensor F :=
  let d1 := set_sensorPin (pin (_adc s)) (_sData s) in
  let d2 := set_Roo (calc_Roo (_ntc s) d1) d1 in
  readSensor raw (mkNTCSensor (_ntc s) (_adc s) d2).

(** [NTCSensor::getCelsius]: the value returned and the state left. *)
Definition getCelsius (s : NTCSensor F) : F * NTCSensor F :=
  (tCelsius (_sData s), s).

(** [NTCSensor::getDataReference] *)
Definition getDataReference (s : NTCSensor F) : SensorData F := _sData s.

(** [NTCSensor::setNTCbeta]: [_ntc.beta = beta;] *)
Definition setNTCbeta (b : Z) (s : NTCSensor F) : NTCSensor F :=
  mkNTCSensor (mkParamsNTC (Rs (_ntc s)) (Ro (_ntc s)) b) (_adc s) (_sData s).

Definition data_line (d : SensorData F) : DataLine F :=
  mkDataLine (analogValue d) (v d) (vin d) (k d) (Rt d)
             (tCelsius d) (tFahrenheit d) (tKelvin d).

(** [NTCSensor::printData]: [readSensor();] then the [printf] of the
    record.  Returns the line printed and the state left. *)
Definition printData (raw : Z) (s : NTCSensor F) : DataLine F * NTCSensor F :=
  let s' := readSensor raw s in
  (data_line (_sData s'), s').

(** The methods a caller can invoke between [setup] calls, with the ADC
    sample each read takes. *)
Inductive Call : Type :=
| CallReadSensor (raw : Z)
| CallGetCelsius
| CallPrintData (raw : Z)
| CallPrintParams
| CallGetDataReference.

Definition call (c : Call) (s : NTCSensor F) : NTCSensor F :=
  match c with
  | CallReadSensor raw => readSensor raw s
  | CallGetCelsius => snd (getCelsius s)
  | CallPrintData raw => snd (printData raw s)
  | CallPrintParams => s
  | CallGetDataReference => s
  end.

Definition calls (cs : list Call) (s : NTCSensor F) : NTCSensor F :=
  fold_left (fun st c => call c st) cs s.

(** *** The conversion chain in the words of the specification (4.2) *)

(** [v = (Vref - Voff) / AdcMax] *)
Definition spec_v (adc : ParamsADC F) : F :=
  (Vref adc - Voff adc) / of_int (Amax adc).
(** [vin = raw * v + Voff] *)
Definition spec_vin (adc : ParamsADC F) (raw : Z) (v : F) : F :=
  of_int raw * v + Voff adc.
(** [k = vin / (Vcc - vin)], inverted when the NTC is wired to supply *)
Definition spec_k (adc : ParamsADC F) (vin : F) : F :=
  if ntcToGround adc then vin / (Vcc adc - vin)
  else lit 1 / (vin / (Vcc adc - vin)).
(** [Rt = Rs * k] *)
Definition spec_Rt (ntc : ParamsNTC) (k : F) : F := of_int (Rs ntc) * k.
(** [Roo = Ro * exp(-beta / (To - Tabs))] *)
Definition spec_Roo (ntc : ParamsNTC) : F :=
  of_int (Ro ntc) * fexp (- of_int (beta ntc) / (lit 25 - lit (-273.15))).
(** [Tkelvin = beta / ln(Rt / Roo)] *)
Definition spec_Tkelvin (ntc : ParamsNTC) (Rt Roo : F) : F :=
  of_int (beta ntc) / flog (Rt / Roo).
(** [Tcelsius = Tkelvin + Tabs] *)
Definition spec_Tcelsius (Tkelvin : F) : F := Tkelvin + lit (-273.15).
(** [Tfahrenheit = Tcelsius * 9/5 + 32] *)
Definition spec_Tfahrenheit (Tcelsius : F) : F :=
  Tcelsius * lit 9 / lit 5 + lit 32.
End Sensor.

(** ** The thermostat controller *)

(** Modelled from the spec: the states of the machine of section 4.3
    (Thermostat.h is missing from the sources). *)
Inductive ThermostatState : Type := Disabled | ArmedIdle | ArmedHeating.

(** Modelled from the spec: Thermostat.h (class [Thermostat], which
    main.cpp includes and constructs) is missing from the sources.  The
    record holds what section 3 lists as the thermostat configuration, the
    state of the machine of section 4.3 and the time of the last poll. *)
Record Thermostat (F : Type) : Type := mkThermostat {
  state : ThermostatState;
  lowerLimit : F;
  upperLimit : F;
  interval : Z;        (* poll interval, ms *)
  lastPoll : Z         (* clock value at the last poll, ms *)
}.
Arguments mkThermostat {F}.
Arguments state {F}.
Arguments lowerLimit {F}.
Arguments upperLimit {F}.
Arguments interval {F}.
Arguments lastPoll {F}.

(** The three callbacks the controller is constructed with. *)
Inductive Callback : Type := OnTick | OnBelowLowerLimit | OnAboveUpperLimit.

(** ** src/main.cpp: the program state and what it does to the outside *)

Inductive Event (F : Type) : Type :=
| EvAnalogRead (pin : Z) (value : Z)        (* analogRead(pin) returned value *)
| EvDigitalWrite (pin : Z) (level : bool)   (* digitalWrite(pin, HIGH/LOW) *)
| EvLogSwitch (on : bool) (was_on : bool)   (* log_i("===> switch on/off heating ...") *)
| EvPrintParams
| EvPrintData (line : DataLine F)
| EvPrintSettings
| EvInvoke (cb : Callback).                 (* the controller calls a callback *)
Arguments EvAnalogRead {F}.
Arguments EvDigitalWrite {F}.
Arguments EvLogSwitch {F}.
Arguments EvPrintParams {F}.
Arguments EvPrintData {F}.
Arguments EvPrintSettings {F}.
Arguments EvInvoke {F}.

(** The globals of main.cpp ([sensor] with the three objects it refers to,
    [thermostat], [heatingIsOn]), the analog input ([adc_input n] is what
    the [n]-th [analogRead] of the run returns) and the trace of effects,
    oldest first. *)
Record World (F : Type) : Type := mkWorld {
  sensor : NTCSensor F;
  thermostat : Thermostat F;
  heatingIsOn : bool;
  adc_input : nat -> Z;
  adc_reads : nat;
  trace : list (Event F)
}.
Arguments mkWorld {F}.
Arguments sensor {F}.
Arguments thermostat {F}.
Arguments heatingIsOn {F}.
Arguments adc_input {F}.
Arguments adc_reads {F}.
Arguments trace {F}.

(** [#define PIN_THERMOSTAT GPIO_NUM_4] and [#define PIN_ADC GPIO_NUM_34] *)
Definition PIN_THERMOSTAT : Z := 4.
Definition PIN_ADC : Z := 34.

(** [#define PIN_HEARTBEAT LED_BUILTIN]: the LED of the board, pin 2 in the
    wiring diagram at the head of main.cpp. *)
Definition LED_BUILTIN : Z := 2.
Definition PIN_HEARTBEAT : Z := LED_BUILTIN.
Definition HIGH : bool := true.
Definition LOW : bool := false.

Section Program.
Context {F : Type} {AF : Arith F}.
Local Open Scope arith_scope.

Definition emit (e : Event F) (w : World F) : World F :=
  mkWorld (sensor w) (thermostat w) (heatingIsOn w) (adc_input w)
          (adc_reads w) (trace w ++ [e]).

Definition set_sensor (s : NTCSensor F) (w : World F) : World F :=
  mkWorld s (thermostat w) (heatingIsOn w) (adc_input w) (adc_reads w)
          (trace w).

Definition set_thermostat (th : Thermostat F) (w : World F) : World F :=
  mkWorld (sensor w) th (heatingIsOn w) (adc_input w) (adc_reads w)
          (trace w).

Definition set_heatingIsOn (b : bool) (w : World F) : World F :=
  mkWorld (sensor w) (thermostat w) b (adc_input w) (adc_reads w) (trace w).

(** [analogRead(pin)]: takes the next sample of the input. *)
Definition analogRead (p : Z) (w : World F) : Z * World F :=
  let raw := adc_input w (adc_reads w) in
  (raw,
   mkWorld (sensor w) (thermostat w) (heatingIsOn w) (adc_input w)
           (S (adc_reads w)) (trace w ++ [EvAnalogRead p raw])).

(** [sensor.readSensor()] on the global sensor. *)
Definition sensor_readSensor (w : World F) : World F :=
  let (raw, w1) := analogRead (pin (_adc (sensor w))) w in
  set_sensor (readSensor raw (sensor w1)) w1.

(** [sensor.printData()]: [readSensor();] then the [printf]. *)
Definition sensor_printData (w : World F) : World F :=
  let w1 := sensor_readSensor w in
  emit (EvPrintData (data_line (_sData (sensor w1)))) w1.

(** [void processData()] *)
Definition processData (w : World F) : World F :=
  let w1 := sensor_readSensor w in
  let w2 := emit EvPrintParams w1 in
  let w3 := sensor_printData w2 in
  emit EvPrintSettings w3.

(** [void turnHeatingOn()] *)
Definition turnHeatingOn (w : World F) : World F :=
  if negb (heatingIsOn w) then
    let w1 := emit (EvLogSwitch true (heatingIsOn w)) w in
    let w2 := emit (EvDigitalWrite PIN_THERMOSTAT HIGH) w1 in
    set_heatingIsOn true w2
  else w.

(** [void turnHeatingOff()] *)
Definition turnHeatingOff (w : World F) : World F :=
  if heatingIsOn w then
    let w1 := emit (EvLogSwitch false (heatingIsOn w)) w in
    let w2 := emit (EvDigitalWrite PIN_THERMOSTAT LOW) w1 in
    set_heatingIsOn false w2
  else w.

(** [Thermostat thermostat(sensor, processData, turnHeatingOn,
    turnHeatingOff);]: the callback behind each of the three slots. *)
Definition callback (cb : Callback) : World F -> World F :=
  match cb with
  | OnTick => processData
  | OnBelowLowerLimit => turnHeatingOn
  | OnAboveUpperLimit => turnHeatingOff
  end.

Definition invoke (cb : Callback) (w : World F) : World F :=
  callback cb (emit (EvInvoke cb) w).

Definition set_state (st : ThermostatState) (w : World F) : World F :=
  let th := thermostat w in
  set_thermostat
    (mkThermostat st (lowerLimit th) (upperLimit th) (interval th)
                  (lastPoll th)) w.

Definition set_lastPoll (now : Z) (w : World F) : World F :=
  let th := thermostat w in
  set_thermostat
    (mkThermostat (state th) (lowerLimit th) (upperLimit th) (interval th)
                  now) w.

(** Modelled from the spec: [Thermostat::enable] and
    [Thermostat::disable] (Thermostat.h is missing).  Section 4.3:
    "Disabled -> Armed-Idle on enable()", "any state -> Disabled on
    disable()". *)
Definition enable (w : World F) : World F :=
  match state (thermostat w) with
  | Disabled => set_state ArmedIdle w
  | _ => w
  end.

Definition disable (w : World F) : World F := set_state Disabled w.

(** Modelled from the spec: the hysteresis evaluation of one poll
    (Thermostat.h is missing).  Section 4.3: Armed-Idle goes to
    Armed-Heating when the poll observes a temperature below the lower
    limit and fires "turn heating on" on this edge; Armed-Heating goes to
    Armed-Idle when the poll observes a temperature at or above the upper
    limit and fires "turn heating off"; no callback fires while
    disabled. *)
Definition evaluate (t : F) (w : World F) : World F :=
  match state (thermostat w) with
  | Disabled => w
  | ArmedIdle =>
      if t <? lowerLimit (thermostat w)
      then invoke OnBelowLowerLimit (set_state ArmedHeating w)
      else w
  | ArmedHeating =>
      if upperLimit (thermostat w) <=? t
      then invoke OnAboveUpperLimit (set_state ArmedIdle w)
      else w
  end.

(** Modelled from the spec: one poll of the controller (Thermostat.h is
    missing).  Section 4.3: "performs one readSensor(), invokes the
    user-supplied data callback, evaluates the hysteresis transition
    above, and resets the last-poll timestamp". *)
Definition poll (now : Z) (w : World F) : World F :=
  let w1 := sensor_readSensor w in
  let w2 := invoke OnTick w1 in
  let w3 := evaluate (fst (getCelsius (sensor w2))) w2 in
  set_lastPoll now w3.

(** Modelled from the spec: [Thermostat::loop], the tick of the
    controller (Thermostat.h is missing); [now] is the value of the
    free-running millisecond clock at the call.  Section 4.3: a poll if
    the time elapsed since the last poll is at least the interval, a
    no-op otherwise. *)
Definition tick (now : Z) (w : World F) : World F :=
  let th := thermostat w in
  if (interval th <=? now - lastPoll th)%Z then poll now w else w.

Section MainLoop.
(** [extern void doMenu();] and [extern void heartbeat(uint8_t pin, uint8_t
    nBeats, uint8_t t, uint8_t duty);]: main.cpp declares and calls them,
    their bodies are outside the sources. *)
Variable doMenu : World F -> World F.
Variable heartbeat : Z -> Z -> Z -> Z -> World F -> World F.

(** [void loop()] of main.cpp: [if(Serial.available()) doMenu();
    thermostat.loop(); heartbeat(PIN_HEARTBEAT, 1, 1, 5);].  [available] is
    what [Serial.available()] returns at this call (the number of bytes
    waiting), [now] the clock value at [thermostat.loop()]. *)
Definition loop (available : Z) (now : Z) (w : World F) : World F :=
  let w1 := if negb (available =? 0)%Z then doMenu w else w in
  let w2 := tick now w1 in
  heartbeat PIN_HEARTBEAT 1 1 5 w2.

(** [loop()] called once for each element of [calls] (the value of
    [Serial.available()] and the clock value of that call), in this
    order. *)
Definition loops (calls : list (Z * Z)) (w : World F) : World F :=
  fold_left (fun st c => loop (fst c) (snd c) st) calls w.
End MainLoop.

(** The events a step adds to the trace. *)
Definition new_events (w w' : World F) : list (Event F) :=
  skipn (length (trace w)) (trace w').

(** The hysteresis evaluation of successive polls that observe the
    temperatures [ts]: the events of each poll, and the final state. *)
Fixpoint evaluations (ts : list F) (w : World F)
    : list (list (Event F)) * World F :=
  match ts with
  | [] => ([], w)
  | t :: ts' =>
      let w' := evaluate t w in
      let (evs, w'') := evaluations ts' w' in
      (new_events w w' :: evs, w'')
  end.

Definition is_invoke (cb : Callback) (e : Event F) : bool :=
  match e, cb with
  | EvInvoke OnTick, OnTick => true
  | EvInvoke OnBelowLowerLimit, OnBelowLowerLimit => true
  | EvInvoke OnAboveUpperLimit, OnAboveUpperLimit => true
  | _, _ => false
  end.

(** How often the controller invoked [cb] in a trace. *)
Definition invocations (cb : Callback) (tr : list (Event F)) : nat :=
  length (filter (is_invoke cb) tr).

Definition is_analogRead (e : Event F) : bool :=
  match e with
  | EvAnalogRead _ _ => true
  | _ => false
  end.

(** How many ADC samples a trace took. *)
Definition sensor_reads (tr : list (Event F)) : nat :=
  length (filter is_analogRead tr).

(** The events that follow the first invocation of [cb]. *)
Fixpoint after_invoke (cb : Callback) (tr : list (Event F))
    : list (Event F) :=
  match tr with
  | [] => []
  | e :: tr' => if is_invoke cb e then tr' else after_invoke cb tr'
  end.

(** The events of a poll in the world [w] before its hysteresis
    evaluation: the read of the controller, the invocation of the data
    callback, and inside [processData] a read, the parameters, the read of
    [printData], its line and the settings. *)
Definition poll_prefix (w : World F) : list (Event F) :=
  let p := pin (_adc (sensor w)) in
  let r1 := adc_input w (adc_reads w) in
  let r2 := adc_input w (1 + adc_reads w)%nat in
  let r3 := adc_input w (2 + adc_reads w)%nat in
  [EvAnalogRead p r1;
   EvInvoke OnTick;
   EvAnalogRead p r2;
   EvPrintParams;
   EvAnalogRead p r3;
   EvPrintData
     (data_line
        (_sData (readSensor r3 (readSensor r2 (readSensor r1 (sensor w))))));
   EvPrintSettings].

(** Modelled from the spec: the hysteresis evaluation of section 4.3 as a
    table (Thermostat.h is missing), together with what the two heating
    callbacks of main.cpp do when they are invoked.  For a controller in
    state [st] with the limits [lower] and [upper], a poll that observes [t]
    while the heating flag of main.cpp is [on] leaves the controller in the
    first component and the flag in the second, and adds the events of the
    third: on the downward edge the invocation of the "on" callback, and
    what [turnHeatingOn] does if the flag was off; on the upward edge the
    invocation of the "off" callback, and what [turnHeatingOff] does if the
    flag was on; nothing otherwise. *)
Definition hysteresis (st : ThermostatState) (lower upper t : F) (on : bool)
    : ThermostatState * bool * list (Event F) :=
  match st with
  | Disabled => (Disabled, on, [])
  | ArmedIdle =>
      if t <? lower
      then (ArmedHeating, true,
            EvInvoke OnBelowLowerLimit ::
            (if on then []
             else [EvLogSwitch true false;
                   EvDigitalWrite PIN_THERMOSTAT HIGH]))
      else (ArmedIdle, on, [])
  | ArmedHeating =>
      if upper <=? t
      then (ArmedIdle, false,
            EvInvoke OnAboveUpperLimit ::
            (if on then [EvLogSwitch false true;
                         EvDigitalWrite PIN_THERMOSTAT LOW]
             else []))
      else (ArmedHeating, on, [])
  end.

(** Events among which there is no ADC sample and no invocation of a
    callback by the controller. *)
Definition quiet (l : list (Event F)) : Prop :=
  sensor_reads l = 0%nat /\ forall cb, invocations cb l = 0%nat.

(** [w'] is [w] with quiet events added to the trace. *)
Definition extends_quietly (w w' : World F) : Prop :=
  sensor w' = sensor w /\ thermostat w' = thermostat w /\
  heatingIsOn w' = heatingIsOn w /\ adc_input w' = adc_input w /\
  adc_reads w' = adc_reads w /\
  exists l, trace w' = trace w ++ l /\ quiet l.

(** What is assumed of [heartbeat], whose body is outside the sources
    (the specification counts heartbeat/LED signalling among the external
    collaborators, "thin I/O wrappers with no algorithmic content"): it
    leaves the sensor, the controller, the heating flag and the ADC alone,
    and what it does to the outside is quiet. *)
Definition outside_program (f : World F -> World F) : Prop :=
  forall w, extends_quietly w (f w).

(** A heartbeat that switches the LED on and off again, and a menu whose
    command disables the thermostat: bodies for the two external functions,
    to run [loop()]. *)
Definition heartbeat_blink (p nBeats t duty : Z) (w : World F) : World F :=
  emit (EvDigitalWrite p LOW) (emit (EvDigitalWrite p HIGH) w).

Definition doMenu_disable (w : World F) : World F := disable w.
End Program.

(** The objects main.cpp defines. *)
Definition ntcRs10k : ParamsNTC := mkParamsNTC 10000 10000 2800.
Definition ntcRs20k : ParamsNTC := mkParamsNTC 20000 10000 2800.

Section Globals.
Context {F : Type} {AF : Arith F}.

Definition adcEsp32_0 : ParamsADC F :=
  mkParamsADC PIN_ADC true 4095 ADC_0db (lit 3300) (lit 1100) (lit 65).
Definition adcEsp32_2_5 : ParamsADC F :=
  mkParamsADC PIN_ADC true 4095 ADC_2_5db (lit 3300) (lit 1300) (lit 65).
Definition adcEsp32_6 : ParamsADC F :=
  mkParamsADC PIN_ADC true 4095 ADC_6db (lit 3300) (lit 1800) (lit 90).
Definition adcEsp32_11 : ParamsADC F :=
  mkParamsADC PIN_ADC true 4095 ADC_11db (lit 3300) (lit 3200) (lit 130).

(** The world after static initialisation ([sensor(ntcRs10k,
    adcEsp32_11, sensorData)], [heatingIsOn = false]), for a thermostat
    object [th] and an analog input [input]. *)
Definition world0 (th : Thermostat F) (input : nat -> Z) : World F :=
  mkWorld (NTCSensor_new ntcRs10k adcEsp32_11 sensorData0) th false input
          O [].
End Globals.

(** ** Inputs used to run the model

    A four-step ADC over the whole supply range with no offset: sample
    [raw] reads [raw * 825] mV of 3300 mV, so the samples 1, 2 and 3 are
    the divider voltages of resistance ratios 1:3, 1:1 and 3:1. *)
Section Inputs.
Context {F : Type} {AF : Arith F}.

Definition adcFourSteps (toGround : bool) : ParamsADC F :=
  mkParamsADC PIN_ADC toGround 4 ADC_11db (lit 3300) (lit 3300) (lit 0).

(** The same ADC parameters for the other wiring of the divider. *)
Definition set_ntcToGround (b : bool) (adc : ParamsADC F) : ParamsADC F :=
  mkParamsADC (pin adc) b (Amax adc) (att adc) (Vcc adc) (Vref adc) (Voff adc).
End Inputs.

(** An NTC parameter set with [beta = 0]. *)
Definition ntcBeta0 : ParamsNTC := mkParamsNTC 10000 10000 0.

(** The arithmetic of the target with the reference libm. *)
Definition ref_arith : Arith float := float_arith RefLibm.libm.
#[global] Existing Instance ref_arith.



(** The double [(double)_ntc.beta / log(_sData.Rt / _sData.Roo)] of
    [readSensor], before it is stored in the [float] member [tKelvin], when
    [Rt] is the nominal resistance [Ro] and [Roo] is the value the
    constructor computes. *)
Definition nominal_quotient (lm : Libm) (ntc : ParamsNTC) : float :=
  (float_of_int (beta ntc) /
   m_log lm (float_of_int (Ro ntc) /
             calc_Roo (AF := float_arith lm) ntc sensorData0))%float.



(** [p] holds of the [2^n] integers from [acc * 2^n] on; with [n = 16] and
    [acc = 0], of every [uint16_t] value. *)
Fixpoint all_bits (n : nat) (acc : Z) (p : Z -> bool) : bool :=
  match n with
  | O => p acc
  | S n' => all_bits n' (2 * acc) p && all_bits n' (2 * acc + 1) p
  end.

Definition all_uint16 (p : Z -> bool) : bool := all_bits 16 0 p.


(** A thermostat armed at 18 and 22 degrees that polls every second. *)
Definition thermostat_18_22 : Thermostat float :=
  mkThermostat ArmedIdle 18%float 22%float 1000 0.

(** The clock values 1000, 1001, ..., 1099. *)
Definition ticks100 : list Z := map Z.of_nat (seq 1000 100).

(** 100 calls of [loop()] at these clock values, with no serial input
    waiting. *)
Definition calls100 : list (Z * Z) := map (fun t => (0%Z, t)) ticks100.

(** The two readings of the arithmetic. *)
Abbreviation readSensorR := (readSensor (AF := real_arith)).
Abbreviation readSensorF lm := (readSensor (AF := float_arith lm)).

(** ** More of src/main.cpp *)

Section ProgramMore.
Context {F : Type} {AF : Arith F}.

(** [void initOutputPins()]: the two [pinMode] calls configure pins; the
    effect on the heater is [digitalWrite(PIN_THERMOSTAT, LOW)]. *)
Definition initOutputPins (w : World F) : World F :=
  emit (EvDigitalWrite PIN_THERMOSTAT LOW) w.

(** The three handlers of main.cpp called in the order [cbs], whoever calls
    them. *)
Definition run_callbacks (cbs : list Callback) (w : World F) : World F :=
  fold_left (fun st cb => callback cb st) cbs w.

(** The levels written to the heating pin, oldest first. *)
Fixpoint heater_writes (tr : list (Event F)) : list bool :=
  match tr with
  | [] => []
  | EvDigitalWrite p level :: tr' =>
      if (p =? PIN_THERMOSTAT)%Z then level :: heater_writes tr'
      else heater_writes tr'
  | _ :: tr' => heater_writes tr'
  end.

(** The level the heating pin was last driven to ([d] if never). *)
Definition heater_level (d : bool) (tr : list (Event F)) : bool :=
  last (heater_writes tr) d.

(** No two successive elements are equal. *)
Fixpoint alternating (l : list bool) : bool :=
  match l with
  | a :: (b :: _) as t => negb (Bool.eqb a b) && alternating t
  | _ => true
  end.

(** Two sensor states agree on what the constructor and [setup] fix: the
    parameters, [Roo] and the pin. *)
Definition same_setup (s1 s2 : NTCSensor F) : Prop :=
  _ntc s1 = _ntc s2 /\ _adc s1 = _adc s2 /\
  Roo (_sData s1) = Roo (_sData s2) /\
  sensorPin (_sData s1) = sensorPin (_sData s2).

(** How many of the calls are calls of the data handler. *)
Definition data_calls (cbs : list Callback) : nat :=
  length (filter (fun cb => match cb with OnTick => true | _ => false end) cbs).
End ProgramMore.

(** A double that is a zero or a finite nonzero number. *)
Definition is_finite_double (x : float) : bool :=
  match Prim2SF x with
  | S754_zero _ | S754_finite _ _ _ => true
  | _ => false
  end.

(** A double that is finite and greater than zero. *)
Definition is_pos_finite (x : float) : bool :=
  match Prim2SF x with
  | S754_finite false _ _ => true
  | _ => false
  end.

(** The record a read of [raw] leaves for the parameters [ntc] and [adc].
    Its members [v], [vin], [k] and [Rt] are computed before [log] is
    called and do not depend on [Roo]. *)
Definition divider_read (ntc : ParamsNTC) (adc : ParamsADC float) (raw : Z)
    : SensorData float :=
  _sData (readSensor (AF := ref_arith) raw (mkNTCSensor ntc adc sensorData0)).

(** The four ADC parameter sets of main.cpp. *)
Definition adcEsp32_all : list (ParamsADC float) :=
  [adcEsp32_0; adcEsp32_2_5; adcEsp32_6; adcEsp32_11].

(** Below the last sample of a 12-bit ADC: a positive step, a voltage
    strictly below the voltage of the next sample, which is below [Vcc]. *)
Definition vin_check (adc : ParamsADC float) (raw : Z) : bool :=
  let d1 := divider_read ntcRs10k adc raw in
  let d2 := divider_read ntcRs10k adc (raw + 1) in
  (raw =? 4095)%Z ||
  (PrimFloat.ltb 0 (v d1) && PrimFloat.ltb (vin d1) (vin d2) &&
   PrimFloat.ltb (vin d2) (Vcc adc)).

(** The sensor of main.cpp ([ntcRs10k], [adcEsp32_11]) in the wiring [g]:
    up to sample 4228 the voltage is inside the supply range and [k] and
    [Rt] are positive and finite; from sample 4229 on the voltage is above
    [Vcc] and [k] and [Rt] are negative. *)
Definition Rt_check (g : bool) (raw : Z) : bool :=
  let d := divider_read ntcRs10k (set_ntcToGround g adcEsp32_11) raw in
  if (raw <=? 4228)%Z
  then PrimFloat.ltb 0 (vin d) && PrimFloat.ltb (vin d) 3300 &&
       is_pos_finite (k d) && is_pos_finite (Rt d)
  else PrimFloat.ltb 3300 (vin d) && PrimFloat.ltb (k d) 0 &&
       PrimFloat.ltb (Rt d) 0 && is_finite_double (Rt d).

(** Below sample 4228, [Rt] of the next sample is larger with the NTC to
    ground and smaller with the NTC to supply. *)
Definition Rt_step_check (raw : Z) : bool :=
  let d1 := divider_read ntcRs10k adcEsp32_11 raw in
  let d2 := divider_read ntcRs10k adcEsp32_11 (raw + 1) in
  let e1 := divider_read ntcRs10k (set_ntcToGround false adcEsp32_11) raw in
  let e2 := divider_read ntcRs10k (set_ntcToGround false adcEsp32_11)
              (raw + 1) in
  (4228 <=? raw)%Z ||
  (PrimFloat.ltb (Rt d1) (Rt d2) && PrimFloat.ltb (Rt e2) (Rt e1)).

(** ** test/saved/BME280Sensor: the other sensor of the repository *)

(** The measurement record the class writes.  The SensorData.h this
    variant was written against is not among the sources; the members are
    the ones BME280Sensor.cpp names, taken as [float] like the values its
    getters return. *)
Record BmeData (F : Type) : Type := mkBmeData {
  bme_tCelsius : F;
  bme_tFahrenheit : F;
  bme_relHumidity : F;
  bme_pLocal : F;
  bme_npLocal : F;
  bme_dewPoint : F;
  bme_altLocal : F;
  bme_pSeaLevel : F
}.
Arguments mkBmeData {F}.
Arguments bme_tCelsius {F}.
Arguments bme_tFahrenheit {F}.
Arguments bme_relHumidity {F}.
Arguments bme_pLocal {F}.
Arguments bme_npLocal {F}.
Arguments bme_dewPoint {F}.
Arguments bme_altLocal {F}.
Arguments bme_pSeaLevel {F}.

(** What the driver (Adafruit_BME280, external) returns at one read. *)
Record BmeReadings (F : Type) : Type := mkBmeReadings {
  readPressure : F;
  readHumidity : F;
  readTemperature : F
}.
Arguments mkBmeReadings {F}.
Arguments readPressure {F}.
Arguments readHumidity {F}.
Arguments readTemperature {F}.

(** How [BME280Sensor::setup] ends: it returns after [calls] calls of
    [begin], or it prints "not found" and stays in
    [while(true) delay(10000UL)]. *)
Inductive SetupOutcome (A : Type) : Type :=
| SetupDone (calls : nat) (a : A)
| SetupHalted (calls : nat).
Arguments SetupDone {A}.
Arguments SetupHalted {A}.

Section BME280.
Context {F : Type} {AF : Arith F}.
Variable fpow : F -> F -> F.      (* pow() of <math.h>, on doubles *)
Variable flogf : F -> F.          (* log() of <math.h> at a float: logf *)
Local Open Scope arith_scope.

(** [BME280Sensor::_calculateDewPoint]: [k] is a [float] local.  The
    argument [_sData.relHumidity/100] of [log] is a [float] (a [float]
    divided by an [int]), so the call is the single-precision logarithm
    [flogf]; its [float] result is added to a [double] quotient and the sum
    is stored in [k]. *)
Definition _calculateDewPoint (d : BmeData F) : F :=
  let k := to_float
             (flogf (to_float (bme_relHumidity d / lit 100)) +
              (lit 17.62 * bme_tCelsius d) / (lit 243.12 + bme_tCelsius d)) in
  to_float (lit 243.12 * k / (lit 17.62 - k)).

(** [BME280Sensor::_calculateNpLocal]: the value stored in [npLocal] (and
    returned). *)
Definition _calculateNpLocal (d : BmeData F) : F :=
  to_float (lit 1013.25 *
            fpow (lit 1 - bme_altLocal d / lit 44330) (lit 5.255)).

(** [BME280Sensor::_readSensor] on the values the driver returns. *)
Definition _readSensor (r : BmeReadings F) (d : BmeData F) : BmeData F :=
  let pLocal' := to_float (readPressure r / lit 100) in
  let relHumidity' := to_float (readHumidity r) in
  let tCelsius' := to_float (readTemperature r) in
  let tFahrenheit' := to_float (tCelsius' * lit 9 / lit 5 + lit 32) in
  let d1 := mkBmeData tCelsius' tFahrenheit' relHumidity' pLocal'
              (bme_npLocal d) (bme_dewPoint d) (bme_altLocal d)
              (bme_pSeaLevel d) in
  let npLocal' := _calculateNpLocal d1 in
  let d2 := mkBmeData tCelsius' tFahrenheit' relHumidity' pLocal' npLocal'
              (bme_dewPoint d) (bme_altLocal d) (bme_pSeaLevel d) in
  let dewPoint' := _calculateDewPoint d2 in
  mkBmeData tCelsius' tFahrenheit' relHumidity' pLocal' npLocal' dewPoint'
            (bme_altLocal d) (bme_pSeaLevel d).

(** The loop [while (! begin(_i2cAddress) && (tries > 0)) { delay(1000);
    tries--; }] of [BME280Sensor::setup]: [begin n] is what the [n]-th call
    of [begin] returns, [tries] the counter (it starts at 5 and is only
    decremented while positive, so it stays a natural number), [n] the
    calls made so far.  Returns the counter and the calls made at exit. *)
Fixpoint begin_loop (begin : nat -> bool) (tries : nat) (n : nat)
    : nat * nat :=
  if begin n then (tries, S n)
  else match tries with
       | S tries' => begin_loop begin tries' (S n)
       | O => (O, S n)
       end.

(** [BME280Sensor::setup] *)
Definition bme_setup (begin : nat -> bool) (r : BmeReadings F)
    (d : BmeData F) : SetupOutcome (BmeData F) :=
  let (tries, calls) := begin_loop begin 5 0 in
  if (tries <=? 0)%nat then SetupHalted calls
  else SetupDone calls (_readSensor r d).
End BME280.

(** * Properties *)

(** ** The sensor, in any arithmetic *)

Section SensorFacts.
Context {F : Type} {AF : Arith F}.
Local Open Scope arith_scope.

Lemma call_Roo (c : Call) (s : NTCSensor F) :
  Roo (_sData (call c s)) = Roo (_sData s).
Proof. destruct c; reflexivity. Qed.

Lemma call_params (c : Call) (s : NTCSensor F) :
  _ntc (call c s) = _ntc s /\ _adc (call c s) = _adc s.
Proof. destruct c; split; reflexivity. Qed.

Lemma calls_Roo (cs : list Call) :
  forall s : NTCSensor F, Roo (_sData (calls cs s)) = Roo (_sData s).
Proof.
  induction cs as [|c cs IH]; intros s.
  - reflexivity.
  - unfold calls in *. cbn [fold_left]. rewrite IH. apply call_Roo.
Qed.

(** The members [readSensor] writes, each in terms of those written
    before it. *)
Lemma readSensor_members (raw : Z) (s : NTCSensor F) :
  let d' := _sData (readSensor raw s) in
  analogValue d' = raw /\
  v d' = spec_v (_adc s) /\
  vin d' = spec_vin (_adc s) raw (v d') /\
  k d' = spec_k (_adc s) (vin d') /\
  Rt d' = spec_Rt (_ntc s) (k d') /\
  tKelvin d' = to_float (spec_Tkelvin (_ntc s) (Rt d') (Roo (_sData s))) /\
  tCelsius d' = to_float (spec_Tcelsius (tKelvin d')) /\
  tFahrenheit d' = to_float (spec_Tfahrenheit (tCelsius d')).
Proof.
  cbn zeta. unfold readSensor, spec_v, spec_vin, spec_k, spec_Rt,
    spec_Tkelvin, spec_Tcelsius, spec_Tfahrenheit, Tabs.
  cbn [_sData _ntc _adc analogValue v vin k Rt tKelvin tCelsius tFahrenheit
       Roo sensorPin].
  repeat split.
  destruct (ntcToGround (_adc s)); reflexivity.
Qed.

(** C6.  [Roo] is [Ro * exp(-beta / (To - Tabs))] after the constructor
    and after [setup], and no sequence of later [readSensor],
    [getCelsius], [printData], [printParams] or [getDataReference] calls
    changes it. *)
Theorem Roo_computed_once (ntc : ParamsNTC) (adc : ParamsADC F)
    (sd : SensorData F) (s : NTCSensor F) (raw0 : Z) (cs : list Call) :
  Roo (_sData (NTCSensor_new ntc adc sd)) = spec_Roo ntc /\
  Roo (_sData (setup raw0 s)) = spec_Roo (_ntc s) /\
  Roo (_sData (calls cs (setup raw0 s))) = Roo (_sData (setup raw0 s)) /\
  Roo (_sData (calls cs (NTCSensor_new ntc adc sd))) = spec_Roo ntc.
Proof.
  repeat split.
  - apply calls_Roo.
  - rewrite calls_Roo. reflexivity.
Qed.

Lemma calls_getCelsius (n : nat) :
  forall s : NTCSensor F, calls (repeat CallGetCelsius n) s = s.
Proof.
  induction n as [|n IH]; intros s; [reflexivity|].
  cbn [repeat]. unfold calls in *. cbn [fold_left]. apply IH.
Qed.

(** C7.  [getCelsius] returns the [tCelsius] member and leaves the whole
    sensor state, the measurement record included, as it was; it takes no
    ADC sample.  So any number of [getCelsius] calls leaves the state
    unchanged and each returns the same value. *)
Theorem getCelsius_pure (s : NTCSensor F) (n : nat) :
  fst (getCelsius s) = tCelsius (_sData s) /\
  snd (getCelsius s) = s /\
  calls (repeat CallGetCelsius n) s = s /\
  fst (getCelsius (calls (repeat CallGetCelsius n) s)) = fst (getCelsius s).
Proof.
  rewrite calls_getCelsius. repeat split.
Qed.

Lemma calls_params (cs : list Call) :
  forall s : NTCSensor F,
    _ntc (calls cs s) = _ntc s /\ _adc (calls cs s) = _adc s.
Proof.
  induction cs as [|c cs IH]; intros s.
  - split; reflexivity.
  - unfold calls in *. cbn [fold_left].
    destruct (IH (call c s)) as [IHn IHa].
    destruct (call_params c s) as [Hn Ha].
    split; congruence.
Qed.

(** C10.  [setNTCbeta b] replaces [beta] and nothing else: [Rs], [Ro],
    the ADC parameters and the whole measurement record, [Roo] included,
    stay.  On a sensor whose [Roo] was derived by [setup] from the old
    parameters, every [readSensor] after it (with any reads, prints and
    [getCelsius] calls in between, and no new [setup]) stores
    [tKelvin = b / log (Rt / Roo)] with the new [b] and the [Roo] of the
    old [beta]. *)
Theorem setNTCbeta_keeps_Roo (b raw0 raw : Z) (s0 : NTCSensor F)
    (cs : list Call) :
  let s := setup raw0 s0 in
  let s' := setNTCbeta b s in
  let d' := _sData (readSensor raw (calls cs s')) in
  beta (_ntc s') = b /\
  Rs (_ntc s') = Rs (_ntc s) /\
  Ro (_ntc s') = Ro (_ntc s) /\
  _adc s' = _adc s /\
  _sData s' = _sData s /\
  Roo d' = spec_Roo (_ntc s0) /\
  tKelvin d' = to_float (of_int b / flog (Rt d' / spec_Roo (_ntc s0))).
Proof.
  cbn zeta.
  set (s' := setNTCbeta b (setup raw0 s0)).
  assert (HRoo : Roo (_sData (calls cs s')) = spec_Roo (_ntc s0))
    by (rewrite calls_Roo; reflexivity).
  assert (Hb : beta (_ntc (calls cs s')) = b)
    by (destruct (calls_params cs s') as [-> _]; reflexivity).
  repeat split; try exact HRoo.
  unfold readSensor.
  cbn [_sData tKelvin Rt].
  rewrite HRoo, Hb. reflexivity.
Qed.
End SensorFacts.

(** ** The formulas over the real numbers *)

(** Reads the decimal literals of the code as quotients of integers. *)
Ltac real_literals := unfold Q2R; cbn [Qnum Qden].

(** Facts about the formulas over the real numbers.  They say what the
    conversion chain would give without rounding; the arithmetic of the
    code is [float_arith]. *)
Section RealFacts.
Local Open Scope R_scope.

Lemma Q2R_Tabs : Q2R (-273.15) = - (27315 / 100).
Proof. real_literals. lra. Qed.

Lemma Q2R_1 : Q2R 1 = 1.
Proof. real_literals. lra. Qed.

(** The beta equation inverts itself at the nominal point:
    [beta / ln (Ro / (Ro * exp (-beta / T))) = T]. *)
Lemma beta_equation_inverse (b ro T : R) :
  b <> 0 -> ro <> 0 -> T <> 0 ->
  b / ln (ro / (ro * exp (- b / T))) = T.
Proof.
  intros Hb Hro HT.
  assert (Hexp : exp (- b / T) <> 0)
    by (apply Rgt_not_eq, exp_pos).
  replace (ro / (ro * exp (- b / T))) with (exp (b / T)).
  - rewrite ln_exp. field. split; assumption.
  - replace (b / T) with (- (- b / T)) by (field; assumption).
    rewrite exp_Ropp. field. split; assumption.
Qed.

(** A divider of series resistance [Rs] and NTC resistance [Rntc] under
    [Vcc]: the tap is at [Vcc * Rntc / (Rs + Rntc)] with the NTC to ground
    and at [Vcc * Rs / (Rs + Rntc)] with the NTC to supply.  The two taps
    add up to [Vcc], and over the real numbers the ratio of the first and
    the inverted ratio of the second are both [Rntc / Rs]. *)
Lemma divider_ratios_reciprocal (V Rser Rntc : R) :
  0 < V -> 0 < Rser -> 0 < Rntc ->
  let Vg := V * Rntc / (Rser + Rntc) in
  let Vs := V * Rser / (Rser + Rntc) in
  Vs = V - Vg /\
  Vg / (V - Vg) = Rntc / Rser /\
  1 / (Vs / (V - Vs)) = Rntc / Rser.
Proof.
  intros HV HRs HR. cbn zeta.
  assert (HVR : V * Rser <> 0)
    by (apply Rmult_integral_contrapositive_currified; lra).
  assert (HVN : V * Rntc <> 0)
    by (apply Rmult_integral_contrapositive_currified; lra).
  split; [|split]; field; repeat split; lra.
Qed.
End RealFacts.

(** ** The two wirings of the divider *)






(** ** The conversion chain *)

(** C1.  One call of [readSensor] with the ADC sample [raw] stores the
    sample and, in each derived member, the value the conversion chain of
    the specification gives from the members stored before it: [v], [vin],
    [k] (inverted iff [ntcToGround] is false), [Rt], [tKelvin], [tCelsius],
    [tFahrenheit]; [Roo], the pin and the parameters stay.  This holds in
    any arithmetic, the three temperatures being [float] members that hold
    the chain's value converted to [float]; in exact arithmetic the members
    are the formulas themselves. *)
Theorem readSensor_conversion_chain :
  (forall (F : Type) (AF : Arith F) (raw : Z) (s : NTCSensor F),
      let d' := _sData (readSensor raw s) in
      analogValue d' = raw /\
      v d' = spec_v (_adc s) /\
      vin d' = spec_vin (_adc s) raw (v d') /\
      k d' = spec_k (_adc s) (vin d') /\
      Rt d' = spec_Rt (_ntc s) (k d') /\
      tKelvin d' = to_float (spec_Tkelvin (_ntc s) (Rt d') (Roo (_sData s))) /\
      tCelsius d' = to_float (spec_Tcelsius (tKelvin d')) /\
      tFahrenheit d' = to_float (spec_Tfahrenheit (tCelsius d')) /\
      Roo d' = Roo (_sData s) /\
      sensorPin d' = sensorPin (_sData s) /\
      _ntc (readSensor raw s) = _ntc s /\
      _adc (readSensor raw s) = _adc s)
  /\
  (forall (raw : Z) (s : NTCSensor R),
      let ntc := _ntc s in
      let adc := _adc s in
      let d' := _sData (readSensorR raw s) in
      v d' = (Vref adc - Voff adc) / IZR (Amax adc) /\
      vin d' = IZR raw * v d' + Voff adc /\
      k d' = (if ntcToGround adc then vin d' / (Vcc adc - vin d')
              else 1 / (vin d' / (Vcc adc - vin d'))) /\
      Rt d' = IZR (Rs ntc) * k d' /\
      tKelvin d' = IZR (beta ntc) / ln (Rt d' / Roo (_sData s)) /\
      tCelsius d' = tKelvin d' + - (27315 / 100) /\
      tFahrenheit d' = tCelsius d' * 9 / 5 + 32)%R.
Proof.
  split.
  - intros F AF raw s.
    pose proof (readSensor_members raw s) as H. cbn zeta in *.
    repeat split; try apply H.
  - intros raw s.
    destruct (readSensor_members (AF := real_arith) raw s)
      as (_ & Hv & Hvin & Hk & HRt & HK & HC & HF).
    cbn zeta in *.
    assert (Ek : k (_sData (readSensorR raw s)) =
                 if ntcToGround (_adc s)
                 then (vin (_sData (readSensorR raw s)) /
                       (Vcc (_adc s) - vin (_sData (readSensorR raw s))))%R
                 else (1 / (vin (_sData (readSensorR raw s)) /
                            (Vcc (_adc s) -
                             vin (_sData (readSensorR raw s)))))%R).
    { rewrite Hk. unfold spec_k.
      cbn [fdiv fsub lit real_arith]. rewrite Q2R_1. reflexivity. }
    assert (EC : tCelsius (_sData (readSensorR raw s)) =
                 (tKelvin (_sData (readSensorR raw s)) + - (27315 / 100))%R).
    { rewrite HC. unfold spec_Tcelsius.
      cbn [to_float fadd lit real_arith]. rewrite Q2R_Tabs. reflexivity. }
    assert (EF : tFahrenheit (_sData (readSensorR raw s)) =
                 (tCelsius (_sData (readSensorR raw s)) * 9 / 5 + 32)%R).
    { rewrite HF. unfold spec_Tfahrenheit.
      cbn [to_float fadd fmul fdiv lit real_arith].
      real_literals. lra. }
    repeat split; assumption.
Qed.

(** The calibration point in the arithmetic of the target, with the
    reference libm: the 10k/10k divider of main.cpp at mid-scale of the
    four-step ADC stores a Celsius value within 1e-3 of 25. *)
Example nominal_resistance_float :
  let s := NTCSensor_new (AF := ref_arith) ntcRs10k (adcFourSteps true)
             sensorData0 in
  let d' := _sData (readSensor 2 s) in
  Rt d' = 10000%float /\
  PrimFloat.ltb (PrimFloat.abs (tCelsius d' - 25)%float) 0.0009765625%float
  = true.
Proof. cbn zeta. split; vm_compute; reflexivity. Qed.

(** ** The sensor in IEEE arithmetic *)

(** The reference libm returns the exact results the C standard fixes. *)
Lemma ref_libm_exact : libm_exact RefLibm.libm.
Proof. repeat split. Qed.

(** The literals of SensorData.h as doubles. *)
Example literals_as_doubles :
  float_of_Q 25 = 25%float /\
  float_of_Q (-273.15) = (-0x1.1126666666666p+8)%float /\
  double_to_float 0x1.2a26666666666p+8 = 0x1.2a2666p+8%float.
Proof. repeat split. Qed.

Section FloatFacts.
Variable lm : Libm.
Local Open Scope float_scope.

Lemma all_bits_spec (p : Z -> bool) (n : nat) :
  forall acc, all_bits n acc p = true ->
  forall z, (acc * 2 ^ Z.of_nat n <= z < (acc + 1) * 2 ^ Z.of_nat n)%Z ->
            p z = true.
Proof.
  induction n as [|n IH]; intros acc H z Hz.
  - cbn [all_bits] in H. replace z with acc by (cbn in Hz; lia). exact H.
  - cbn [all_bits] in H. apply andb_true_iff in H as [H0 H1].
    rewrite Nat2Z.inj_succ, Z.pow_succ_r in Hz by lia.
    assert (Hp : (0 < 2 ^ Z.of_nat n)%Z) by (apply Z.pow_pos_nonneg; lia).
    destruct (Z_lt_ge_dec z ((2 * acc + 1) * 2 ^ Z.of_nat n)) as [Hlt|Hge].
    + apply (IH _ H0). nia.
    + apply (IH _ H1). nia.
Qed.

Lemma all_uint16_spec (p : Z -> bool) :
  all_uint16 p = true -> forall z, is_uint16 z -> p z = true.
Proof.
  unfold all_uint16, is_uint16. intros H z Hz.
  apply (all_bits_spec p 16 0%Z H). cbn. lia.
Qed.

(** The quotient of a [uint16_t] by [+0]: [+infinity], or NaN for 0. *)
Lemma uint16_div_zero (b : Z) :
  is_uint16 b ->
  float_of_int b / 0 = if (b =? 0)%Z then nan else infinity.
Proof.
  intros Hb.
  assert (H : PrimFloat.Leibniz.eqb (float_of_int b / 0)
                (if (b =? 0)%Z then nan else infinity) = true).
  { revert b Hb. apply all_uint16_spec. vm_compute. reflexivity. }
  apply FloatAxioms.Leibniz.eqb_spec in H. exact H.
Qed.

(** C3 (as the code has it).  [readSensor] has no guard and reports no
    invalid reading.  When the argument [Rt / Roo] of the logarithm is 1
    (and [log(1)] is [+0], as the C standard has it), the new sample and
    its derived members overwrite the record and the three temperatures
    stored are not finite: [+infinity] for a nonzero [beta], NaN for
    [beta = 0].  A record that held a finite temperature is not retained. *)
Theorem readSensor_no_guard (raw : Z) (s : NTCSensor float) :
  m_log lm 1 = 0 ->
  is_uint16 (beta (_ntc s)) ->
  let d' := _sData (readSensorF lm raw s) in
  Rt d' / Roo (_sData s) = 1 ->
  let t := if (beta (_ntc s) =? 0)%Z then nan else infinity in
  tKelvin d' = t /\ tCelsius d' = t /\ tFahrenheit d' = t /\
  PrimFloat.is_finite (tCelsius d') = false /\
  analogValue d' = raw /\
  (PrimFloat.is_finite (tCelsius (_sData s)) = true -> d' <> _sData s).
Proof.
  intros Hlog Hb. cbn zeta. intros Hratio.
  destruct (readSensor_members (AF := float_arith lm) raw s)
    as (Ha & _ & _ & _ & _ & HK & HC & HF).
  cbn zeta in Ha, HK, HC, HF.
  assert (EK : tKelvin (_sData (readSensorF lm raw s))
               = if (beta (_ntc s) =? 0)%Z then nan else infinity).
  { rewrite HK. unfold spec_Tkelvin.
    cbn [fdiv flog of_int to_float float_arith].
    rewrite Hratio, Hlog, (uint16_div_zero _ Hb).
    destruct (beta (_ntc s) =? 0)%Z; reflexivity. }
  assert (EC : tCelsius (_sData (readSensorF lm raw s))
               = if (beta (_ntc s) =? 0)%Z then nan else infinity).
  { rewrite HC, EK. unfold spec_Tcelsius.
    cbn [fadd lit to_float float_arith].
    destruct (beta (_ntc s) =? 0)%Z; vm_compute; reflexivity. }
  assert (EF : tFahrenheit (_sData (readSensorF lm raw s))
               = if (beta (_ntc s) =? 0)%Z then nan else infinity).
  { rewrite HF, EC. unfold spec_Tfahrenheit.
    cbn [fadd fmul fdiv lit to_float float_arith].
    destruct (beta (_ntc s) =? 0)%Z; vm_compute; reflexivity. }
  repeat split; try assumption.
  - rewrite EC. destruct (beta (_ntc s) =? 0)%Z; reflexivity.
  - intros Hfin Heq. rewrite <- Heq, EC in Hfin.
    destruct (beta (_ntc s) =? 0)%Z; vm_compute in Hfin; discriminate.
Qed.
End FloatFacts.

(** C3, counterexample.  The four-step ADC on a 10k/10k divider whose
    [Roo] is 10000 (constructed with [beta = 0], so [exp(-0) = 1], then
    [setNTCbeta(2800)], which keeps [Roo]).  Sample 3 gives a finite
    temperature; sample 2 then reconstructs [Rt = 10000 = Roo], and the
    read stores [+infinity] over the finite record.  With [beta] left at 0
    the same sample stores NaN. *)
Lemma readSensor_guard_counterexample :
  let s0 := setNTCbeta 2800
              (NTCSensor_new (AF := ref_arith) ntcBeta0 (adcFourSteps true)
                 sensorData0) in
  let s1 := readSensor (AF := ref_arith) 3 s0 in
  let s2 := readSensor (AF := ref_arith) 2 s1 in
  let n2 := readSensor (AF := ref_arith) 2
              (NTCSensor_new (AF := ref_arith) ntcBeta0 (adcFourSteps true)
                 sensorData0) in
  PrimFloat.is_finite (tCelsius (_sData s1)) = true /\
  Rt (_sData s2) = Roo (_sData s2) /\
  tKelvin (_sData s2) = infinity /\
  tCelsius (_sData s2) = infinity /\
  tFahrenheit (_sData s2) = infinity /\
  _sData s2 <> _sData s1 /\
  Rt (_sData n2) = Roo (_sData n2) /\
  tKelvin (_sData n2) = nan /\
  tCelsius (_sData n2) = nan.
Proof.
  cbn zeta. repeat split; try (vm_compute; reflexivity).
  intros H.
  apply (f_equal (fun d => PrimFloat.is_finite (tCelsius d))) in H.
  vm_compute in H. discriminate.
Qed.

Lemma readSensor_no_guard_witness :
  let s1 := readSensor (AF := ref_arith) 3
              (setNTCbeta 2800
                 (NTCSensor_new (AF := ref_arith) ntcBeta0
                    (adcFourSteps true) sensorData0)) in
  let d' := _sData (readSensorF RefLibm.libm 2 s1) in
  tKelvin d' = infinity /\ tCelsius d' = infinity /\
  tFahrenheit d' = infinity /\
  PrimFloat.is_finite (tCelsius d') = false /\
  analogValue d' = 2%Z /\
  (PrimFloat.is_finite (tCelsius (_sData s1)) = true -> d' <> _sData s1).
Proof.
  cbn zeta.
  apply (readSensor_no_guard RefLibm.libm 2
           (readSensor (AF := ref_arith) 3
              (setNTCbeta 2800
                 (NTCSensor_new (AF := ref_arith) ntcBeta0
                    (adcFourSteps true) sensorData0)))).
  - vm_compute. reflexivity.
  - unfold is_uint16. cbn. lia.
  - vm_compute. reflexivity.
Defined.

(** C9.  [printData] is [readSensor] followed by the print: the state it
    leaves is the one [readSensor] leaves on the sample it takes, and the
    line printed is that of the new record.  In the program, a
    [sensor.printData()] takes one ADC sample, replaces the sensor state by
    [readSensor] of it and then prints.  So a [printData] can change the
    stored temperature: after [setup] on sample 2027 of the ADC of
    main.cpp, a [printData] that samples 2028 lowers [tCelsius]. *)
Theorem printData_reads_first :
  (forall (F : Type) (AF : Arith F) (raw : Z) (s : NTCSensor F),
      snd (printData raw s) = readSensor raw s /\
      fst (printData raw s) = data_line (_sData (readSensor raw s)))
  /\
  (forall (F : Type) (AF : Arith F) (w : World F),
      let raw := adc_input w (adc_reads w) in
      let w' := sensor_printData w in
      adc_reads w' = S (adc_reads w) /\
      sensor w' = readSensor raw (sensor w) /\
      trace w' = trace w ++
                 [EvAnalogRead (pin (_adc (sensor w))) raw;
                  EvPrintData (data_line (_sData (readSensor raw (sensor w))))])
  /\
  (let s := setup (AF := ref_arith) 2027
              (NTCSensor_new ntcRs10k adcEsp32_11 sensorData0) in
   let s' := snd (printData (AF := ref_arith) 2028 s) in
   PrimFloat.ltb (tCelsius (_sData s')) (tCelsius (_sData s)) = true /\
   tKelvin (_sData s') <> tKelvin (_sData s)).
Proof.
  split; [|split].
  - intros F AF raw s. split; reflexivity.
  - intros F AF w. cbn zeta. repeat split.
    unfold sensor_printData, sensor_readSensor, analogRead, emit, set_sensor.
    cbn [trace sensor]. rewrite <- app_assoc. reflexivity.
  - cbn zeta. split.
    + vm_compute. reflexivity.
    + intros H.
      apply (f_equal (fun x => PrimFloat.ltb x 298.15625)) in H.
      vm_compute in H. discriminate.
Qed.

(** The stale [Roo] in numbers (ADC of main.cpp, sample 2027, reference
    libm): after [setNTCbeta(3950)] a read reports more than 140 degrees,
    a read after a new [setup] about 25. *)
Example stale_Roo_after_setNTCbeta :
  let s := setNTCbeta 3950
             (setup (AF := ref_arith) 2027
                (NTCSensor_new ntcRs10k adcEsp32_11 sensorData0)) in
  PrimFloat.ltb 140 (tCelsius (_sData (readSensor 2027 s))) = true /\
  PrimFloat.ltb (tCelsius (_sData (setup 2027 s))) 26 = true.
Proof. cbn zeta. split; vm_compute; reflexivity. Qed.

(** ** The calibration point in IEEE arithmetic *)


(** *** Storing a double between 256 and 512 in a [float] *)

Section Rounding32.
Local Open Scope Z_scope.








End Rounding32.

Local Open Scope float_scope.





Section NominalPoint.
Variable lm : Libm.

End NominalPoint.


(** With the reference libm the quotient is in the band for the 10k NTC
    at every [beta] from 1 to 65535, and for the [beta] of main.cpp at every
    nominal resistance from 1 to 65535 ohms. *)
Example nominal_quotient_reference (n : Z) :
  (0 < n < 65536)%Z ->
  let q1 := nominal_quotient RefLibm.libm (mkParamsNTC 10000 10000 n) in
  let q2 := nominal_quotient RefLibm.libm (mkParamsNTC 10000 n 2800) in
  (PrimFloat.leb 298.149169921875 q1 = true /\
   PrimFloat.leb q1 298.15087890625 = true) /\
  (PrimFloat.leb 298.149169921875 q2 = true /\
   PrimFloat.leb q2 298.15087890625 = true).
Proof.
  intros Hn. cbn zeta.
  assert (Hu : is_uint16 n) by (unfold is_uint16; lia).
  pose (in_band := fun q : float =>
          (PrimFloat.leb 298.149169921875 q &&
           PrimFloat.leb q 298.15087890625)%bool).
  assert (H : ((n =? 0)%Z ||
               (in_band (nominal_quotient RefLibm.libm
                           (mkParamsNTC 10000 10000 n)) &&
                in_band (nominal_quotient RefLibm.libm
                           (mkParamsNTC 10000 n 2800))))%bool = true).
  { revert n Hu Hn. intros n Hu _. revert n Hu.
    apply (all_uint16_spec
             (fun n => ((n =? 0)%Z ||
                (in_band (nominal_quotient RefLibm.libm
                            (mkParamsNTC 10000 10000 n)) &&
                 in_band (nominal_quotient RefLibm.libm
                            (mkParamsNTC 10000 n 2800))))%bool)).
    vm_compute. reflexivity. }
  destruct (Z.eqb_spec n 0) as [E|E]; [lia|].
  cbn [orb] in H. unfold in_band in H.
  rewrite !andb_true_iff in H.
  exact H.
Qed.
Local Close Scope float_scope.

(** ** The program: callbacks, polls and ticks *)

Section ProgramFacts.
Context {F : Type} {AF : Arith F}.
Local Open Scope arith_scope.

Lemma new_events_app (w w' : World F) (l : list (Event F)) :
  trace w' = trace w ++ l -> new_events w w' = l.
Proof.
  intros H. unfold new_events. rewrite H, skipn_app, skipn_all, Nat.sub_diag.
  reflexivity.
Qed.

Lemma new_events_same (w : World F) : new_events w w = [].
Proof. apply new_events_app. symmetry. apply app_nil_r. Qed.

Lemma invocations_app (cb : Callback) (l1 l2 : list (Event F)) :
  invocations cb (l1 ++ l2) = (invocations cb l1 + invocations cb l2)%nat.
Proof. unfold invocations. rewrite filter_app, length_app. reflexivity. Qed.

Lemma sensor_reads_app (l1 l2 : list (Event F)) :
  sensor_reads (l1 ++ l2) = (sensor_reads l1 + sensor_reads l2)%nat.
Proof. unfold sensor_reads. rewrite filter_app, length_app. reflexivity. Qed.

(** *** What each callback does *)

Lemma turnHeatingOn_off (w : World F) :
  heatingIsOn w = false ->
  turnHeatingOn w =
    mkWorld (sensor w) (thermostat w) true (adc_input w) (adc_reads w)
      (trace w ++ [EvLogSwitch true false;
                   EvDigitalWrite PIN_THERMOSTAT HIGH]).
Proof.
  intros H. unfold turnHeatingOn, emit, set_heatingIsOn. rewrite H.
  cbn [negb trace sensor thermostat adc_input adc_reads].
  rewrite <- app_assoc. reflexivity.
Qed.

Lemma turnHeatingOn_on (w : World F) :
  heatingIsOn w = true -> turnHeatingOn w = w.
Proof. intros H. unfold turnHeatingOn. rewrite H. reflexivity. Qed.

Lemma turnHeatingOff_on (w : World F) :
  heatingIsOn w = true ->
  turnHeatingOff w =
    mkWorld (sensor w) (thermostat w) false (adc_input w) (adc_reads w)
      (trace w ++ [EvLogSwitch false true;
                   EvDigitalWrite PIN_THERMOSTAT LOW]).
Proof.
  intros H. unfold turnHeatingOff, emit, set_heatingIsOn. rewrite H.
  cbn [trace sensor thermostat adc_input adc_reads].
  rewrite <- app_assoc. reflexivity.
Qed.

Lemma turnHeatingOff_off (w : World F) :
  heatingIsOn w = false -> turnHeatingOff w = w.
Proof. intros H. unfold turnHeatingOff. rewrite H. reflexivity. Qed.

(** A second call of a heating callback in a row does nothing: the guard
    on [heatingIsOn] lets only the first one act. *)
Lemma turnHeatingOn_twice (w : World F) :
  turnHeatingOn (turnHeatingOn w) = turnHeatingOn w.
Proof.
  destruct (heatingIsOn w) eqn:Hh.
  - rewrite (turnHeatingOn_on w Hh). exact (turnHeatingOn_on w Hh).
  - rewrite (turnHeatingOn_off w Hh). apply turnHeatingOn_on. reflexivity.
Qed.

Lemma turnHeatingOff_twice (w : World F) :
  turnHeatingOff (turnHeatingOff w) = turnHeatingOff w.
Proof.
  destruct (heatingIsOn w) eqn:Hh.
  - rewrite (turnHeatingOff_on w Hh). apply turnHeatingOff_off. reflexivity.
  - rewrite (turnHeatingOff_off w Hh). exact (turnHeatingOff_off w Hh).
Qed.

(** [processData] reads the sensor twice: once itself, once in
    [printData]. *)
Lemma processData_effect (w : World F) :
  let r1 := adc_input w (adc_reads w) in
  let r2 := adc_input w (S (adc_reads w)) in
  let s2 := readSensor r2 (readSensor r1 (sensor w)) in
  processData w =
    mkWorld s2 (thermostat w) (heatingIsOn w) (adc_input w)
      (S (S (adc_reads w)))
      (trace w ++ [EvAnalogRead (pin (_adc (sensor w))) r1;
                   EvPrintParams;
                   EvAnalogRead (pin (_adc (sensor w))) r2;
                   EvPrintData (data_line (_sData s2));
                   EvPrintSettings]).
Proof.
  cbn zeta.
  unfold processData, sensor_printData, sensor_readSensor, analogRead, emit,
    set_sensor.
  cbn [trace sensor thermostat adc_input adc_reads heatingIsOn].
  rewrite <- !app_assoc. reflexivity.
Qed.

(** *** The hysteresis evaluation *)

(** The heating callbacks take no sample, leave the sensor and the
    configuration alone, and are invoked at most once per evaluation. *)
Lemma evaluate_frame (t : F) (w : World F) :
  exists l,
    trace (evaluate t w) = trace w ++ l /\
    invocations OnTick l = 0%nat /\
    sensor_reads l = 0%nat /\
    (invocations OnBelowLowerLimit l + invocations OnAboveUpperLimit l <= 1)%nat /\
    sensor (evaluate t w) = sensor w /\
    adc_reads (evaluate t w) = adc_reads w /\
    adc_input (evaluate t w) = adc_input w /\
    interval (thermostat (evaluate t w)) = interval (thermostat w) /\
    lastPoll (thermostat (evaluate t w)) = lastPoll (thermostat w).
Proof.
  unfold evaluate.
  destruct (state (thermostat w)) eqn:Hst.
  - exists []. rewrite app_nil_r. repeat split. cbn. lia.
  - destruct (t <? lowerLimit (thermostat w)).
    + unfold invoke, callback.
      destruct (heatingIsOn w) eqn:Hh.
      * rewrite turnHeatingOn_on by exact Hh.
        exists [EvInvoke OnBelowLowerLimit]. repeat split. cbn. lia.
      * rewrite turnHeatingOn_off by exact Hh.
        exists [EvInvoke OnBelowLowerLimit; EvLogSwitch true false;
                EvDigitalWrite PIN_THERMOSTAT HIGH].
        cbn [emit set_state set_thermostat trace sensor thermostat
             adc_reads adc_input interval lastPoll].
        rewrite <- app_assoc. repeat split. cbn. lia.
    + exists []. rewrite app_nil_r. repeat split. cbn. lia.
  - destruct (upperLimit (thermostat w) <=? t).
    + unfold invoke, callback.
      destruct (heatingIsOn w) eqn:Hh.
      * rewrite turnHeatingOff_on by exact Hh.
        exists [EvInvoke OnAboveUpperLimit; EvLogSwitch false true;
                EvDigitalWrite PIN_THERMOSTAT LOW].
        cbn [emit set_state set_thermostat trace sensor thermostat
             adc_reads adc_input interval lastPoll].
        rewrite <- app_assoc. repeat split. cbn. lia.
      * rewrite turnHeatingOff_off by exact Hh.
        exists [EvInvoke OnAboveUpperLimit]. repeat split. cbn. lia.
    + exists []. rewrite app_nil_r. repeat split. cbn. lia.
Qed.

(** A reading that is neither below the lower limit nor at or above the
    upper limit changes nothing, in any state. *)
Lemma evaluate_in_band (t : F) (w : World F) :
  (t <? lowerLimit (thermostat w)) = false ->
  (upperLimit (thermostat w) <=? t) = false ->
  evaluate t w = w.
Proof.
  intros Hlo Hhi. unfold evaluate.
  destruct (state (thermostat w)); rewrite ?Hlo, ?Hhi; reflexivity.
Qed.

(** While disabled no callback fires, and [enable] arms the controller. *)
Lemma evaluate_disabled (t : F) (w : World F) :
  state (thermostat w) = Disabled ->
  evaluate t w = w /\ state (thermostat (enable w)) = ArmedIdle /\
  state (thermostat (disable (enable w))) = Disabled.
Proof.
  intros Hst. unfold evaluate, enable. rewrite Hst. repeat split.
Qed.

(** While heating, a reading below the upper limit changes nothing: the
    "on" callback is not fired again. *)
Lemma evaluate_heating_below_upper (t : F) (w : World F) :
  state (thermostat w) = ArmedHeating ->
  (upperLimit (thermostat w) <=? t) = false ->
  evaluate t w = w.
Proof. intros Hst Hhi. unfold evaluate. rewrite Hst, Hhi. reflexivity. Qed.

(** While idle, a reading at or above the lower limit changes nothing. *)
Lemma evaluate_idle_not_below (t : F) (w : World F) :
  state (thermostat w) = ArmedIdle ->
  (t <? lowerLimit (thermostat w)) = false ->
  evaluate t w = w.
Proof. intros Hst Hlo. unfold evaluate. rewrite Hst, Hlo. reflexivity. Qed.

(** The downward edge. *)
Lemma evaluate_idle_below (t : F) (w : World F) :
  state (thermostat w) = ArmedIdle ->
  (t <? lowerLimit (thermostat w)) = true ->
  heatingIsOn w = false ->
  evaluate t w =
    mkWorld (sensor w)
      (mkThermostat ArmedHeating (lowerLimit (thermostat w))
         (upperLimit (thermostat w)) (interval (thermostat w))
         (lastPoll (thermostat w)))
      true (adc_input w) (adc_reads w)
      (trace w ++ [EvInvoke OnBelowLowerLimit; EvLogSwitch true false;
                   EvDigitalWrite PIN_THERMOSTAT HIGH]).
Proof.
  intros Hst Hlo Hh. unfold evaluate. rewrite Hst, Hlo.
  unfold invoke, callback. rewrite turnHeatingOn_off by exact Hh.
  cbn [emit set_state set_thermostat trace sensor thermostat adc_reads
       adc_input].
  rewrite <- app_assoc. reflexivity.
Qed.

(** The upward edge. *)
Lemma evaluate_heating_above (t : F) (w : World F) :
  state (thermostat w) = ArmedHeating ->
  (upperLimit (thermostat w) <=? t) = true ->
  heatingIsOn w = true ->
  evaluate t w =
    mkWorld (sensor w)
      (mkThermostat ArmedIdle (lowerLimit (thermostat w))
         (upperLimit (thermostat w)) (interval (thermostat w))
         (lastPoll (thermostat w)))
      false (adc_input w) (adc_reads w)
      (trace w ++ [EvInvoke OnAboveUpperLimit; EvLogSwitch false true;
                   EvDigitalWrite PIN_THERMOSTAT LOW]).
Proof.
  intros Hst Hhi Hh. unfold evaluate. rewrite Hst, Hhi.
  unfold invoke, callback. rewrite turnHeatingOff_on by exact Hh.
  cbn [emit set_state set_thermostat trace sensor thermostat adc_reads
       adc_input].
  rewrite <- app_assoc. reflexivity.
Qed.

(** *** Polls and ticks *)

(** One poll: the read of the controller, [processData] with its two
    reads, at most one heating callback, the clock value recorded, the
    interval kept. *)
Lemma poll_effect (now : Z) (w : World F) :
  let n := adc_reads w in
  exists l,
    trace (poll now w) = trace w ++ poll_prefix w ++ l /\
    invocations OnTick l = 0%nat /\
    sensor_reads l = 0%nat /\
    (invocations OnBelowLowerLimit l + invocations OnAboveUpperLimit l <= 1)%nat /\
    adc_reads (poll now w) = (3 + n)%nat /\
    adc_input (poll now w) = adc_input w /\
    sensor (poll now w) =
      readSensor (adc_input w (2 + n)%nat)
        (readSensor (adc_input w (1 + n)%nat)
           (readSensor (adc_input w n) (sensor w))) /\
    interval (thermostat (poll now w)) = interval (thermostat w) /\
    lastPoll (thermostat (poll now w)) = now.
Proof.
  cbn zeta. unfold poll, invoke. cbn [callback].
  rewrite processData_effect. cbn zeta.
  match goal with
  | |- context [evaluate ?t ?w2] =>
      destruct (evaluate_frame t w2)
        as (l & Htr & Htick & Hreads & Hheat & Hs & Hn & Hin & Hiv & Hlp);
      set (w3 := evaluate t w2) in *
  end.
  cbn [emit sensor_readSensor analogRead set_sensor trace sensor thermostat
       adc_reads adc_input heatingIsOn _adc readSensor pin] in Htr, Hs, Hn,
       Hin, Hiv, Hlp.
  exists l.
  unfold set_lastPoll, set_thermostat, poll_prefix.
  cbn [trace sensor thermostat adc_reads adc_input interval lastPoll
       Nat.add].
  repeat split; try assumption.
  rewrite Htr, <- !app_assoc. reflexivity.
Qed.

Lemma poll_prefix_counts (w : World F) :
  invocations OnTick (poll_prefix w) = 1%nat /\
  sensor_reads (poll_prefix w) = 3%nat /\
  invocations OnBelowLowerLimit (poll_prefix w) = 0%nat /\
  invocations OnAboveUpperLimit (poll_prefix w) = 0%nat.
Proof. repeat split. Qed.

Lemma tick_early (now : Z) (w : World F) :
  (now - lastPoll (thermostat w) < interval (thermostat w))%Z ->
  tick now w = w.
Proof.
  intros H. unfold tick.
  destruct (Z.leb_spec (interval (thermostat w))
              (now - lastPoll (thermostat w))) as [Hle|Hlt];
    [lia|reflexivity].
Qed.

Lemma tick_due (now : Z) (w : World F) :
  (interval (thermostat w) <= now - lastPoll (thermostat w))%Z ->
  tick now w = poll now w.
Proof.
  intros H. unfold tick.
  destruct (Z.leb_spec (interval (thermostat w))
              (now - lastPoll (thermostat w))) as [Hle|Hlt];
    [reflexivity|lia].
Qed.

(** The hysteresis evaluation is the table [hysteresis]: the state, the
    heating flag and the events are the ones the table gives; nothing else
    changes. *)
Lemma evaluate_table (t : F) (w : World F) :
  let th := thermostat w in
  let h := hysteresis (state th) (lowerLimit th) (upperLimit th) t
             (heatingIsOn w) in
  evaluate t w =
    mkWorld (sensor w)
      (mkThermostat (fst (fst h)) (lowerLimit th) (upperLimit th)
         (interval th) (lastPoll th))
      (snd (fst h)) (adc_input w) (adc_reads w) (trace w ++ snd h).
Proof.
  destruct w as [s [st lo up iv lp] on ai ar tr].
  cbn zeta. unfold evaluate, hysteresis.
  cbn [thermostat state lowerLimit upperLimit interval lastPoll heatingIsOn
       sensor adc_input adc_reads trace].
  destruct st.
  - cbn [fst snd]. rewrite app_nil_r. reflexivity.
  - destruct (t <? lo).
    + unfold invoke, callback, turnHeatingOn, set_state, set_thermostat,
        set_heatingIsOn, emit.
      cbn [thermostat state lowerLimit upperLimit interval lastPoll
           heatingIsOn sensor adc_input adc_reads trace fst snd].
      destruct on; cbn [negb]; rewrite <- ?app_assoc; reflexivity.
    + cbn [fst snd]. rewrite app_nil_r. reflexivity.
  - destruct (up <=? t).
    + unfold invoke, callback, turnHeatingOff, set_state, set_thermostat,
        set_heatingIsOn, emit.
      cbn [thermostat state lowerLimit upperLimit interval lastPoll
           heatingIsOn sensor adc_input adc_reads trace fst snd].
      destruct on; rewrite <- ?app_assoc; reflexivity.
    + cbn [fst snd]. rewrite app_nil_r. reflexivity.
Qed.

(** One poll, in full: the three samples, the table at the temperature of
    the last one, the clock value recorded. *)
Lemma poll_table (now : Z) (w : World F) :
  let n := adc_reads w in
  let s3 := readSensor (adc_input w (2 + n)%nat)
              (readSensor (adc_input w (1 + n)%nat)
                 (readSensor (adc_input w n) (sensor w))) in
  let th := thermostat w in
  let h := hysteresis (state th) (lowerLimit th) (upperLimit th)
             (tCelsius (_sData s3)) (heatingIsOn w) in
  poll now w =
    mkWorld s3
      (mkThermostat (fst (fst h)) (lowerLimit th) (upperLimit th)
         (interval th) now)
      (snd (fst h)) (adc_input w) (3 + n)%nat
      (trace w ++ poll_prefix w ++ snd h).
Proof.
  cbn zeta. unfold poll, invoke. cbn [callback].
  rewrite processData_effect. cbn zeta.
  rewrite evaluate_table. cbn zeta.
  unfold set_lastPoll, set_thermostat, poll_prefix, getCelsius.
  cbn [emit sensor_readSensor analogRead set_sensor trace sensor thermostat
       adc_reads adc_input heatingIsOn _adc readSensor pin fst snd state
       lowerLimit upperLimit interval lastPoll Nat.add].
  rewrite <- !app_assoc. reflexivity.
Qed.

(** The table invokes no data callback and takes no sample. *)
Lemma hysteresis_counts (st : ThermostatState) (lower upper t : F)
    (on : bool) :
  let l := snd (hysteresis st lower upper t on) in
  invocations OnTick l = 0%nat /\ sensor_reads l = 0%nat.
Proof.
  cbn zeta. unfold hysteresis.
  destruct st; [split; reflexivity| |].
  - destruct (t <? lower); [destruct on|]; split; reflexivity.
  - destruct (upper <=? t); [destruct on|]; split; reflexivity.
Qed.

(** *** Quiet steps *)

Lemma quiet_nil : quiet ([] : list (Event F)).
Proof. split; [reflexivity|intros cb; reflexivity]. Qed.

Lemma quiet_app (l1 l2 : list (Event F)) :
  quiet l1 -> quiet l2 -> quiet (l1 ++ l2).
Proof.
  intros [R1 I1] [R2 I2]. split.
  - rewrite sensor_reads_app, R1, R2. reflexivity.
  - intros cb. rewrite invocations_app, I1, I2. reflexivity.
Qed.

Lemma extends_quietly_refl (w : World F) : extends_quietly w w.
Proof.
  unfold extends_quietly. repeat split.
  exists []. split; [symmetry; apply app_nil_r|apply quiet_nil].
Qed.

Lemma extends_quietly_trans (a b c : World F) :
  extends_quietly a b -> extends_quietly b c -> extends_quietly a c.
Proof.
  intros (Hs1 & Ht1 & Hh1 & Hi1 & Hn1 & l1 & Htr1 & Hq1)
         (Hs2 & Ht2 & Hh2 & Hi2 & Hn2 & l2 & Htr2 & Hq2).
  unfold extends_quietly.
  rewrite Hs2, Ht2, Hh2, Hi2, Hn2.
  split; [exact Hs1|]. split; [exact Ht1|]. split; [exact Hh1|].
  split; [exact Hi1|]. split; [exact Hn1|].
  exists (l1 ++ l2). split.
  - rewrite Htr2, Htr1, app_assoc. reflexivity.
  - apply quiet_app; assumption.
Qed.

Lemma extends_quietly_events (w w' : World F) :
  extends_quietly w w' -> quiet (new_events w w').
Proof.
  intros (_ & _ & _ & _ & _ & l & Htr & Hq).
  rewrite (new_events_app _ _ _ Htr). exact Hq.
Qed.

Lemma poll_prefix_ext (w w' : World F) :
  extends_quietly w w' -> poll_prefix w' = poll_prefix w.
Proof.
  intros (Hs & _ & _ & Hi & Hn & _).
  unfold poll_prefix. rewrite Hs, Hi, Hn. reflexivity.
Qed.

(** Events before the first invocation of [cb] do not count. *)
Lemma after_invoke_app (cb : Callback) (l1 l2 : list (Event F)) :
  invocations cb l1 = 0%nat ->
  after_invoke cb (l1 ++ l2) = after_invoke cb l2.
Proof.
  induction l1 as [|e l1 IH]; intros H; [reflexivity|].
  unfold invocations in H, IH. cbn [filter] in H.
  cbn [app after_invoke].
  destruct (is_invoke cb e); [discriminate H|].
  apply IH. exact H.
Qed.

(** After the invocation of the data callback a poll takes the two samples
    of [processData]. *)
Lemma after_invoke_poll_prefix (w : World F) (l : list (Event F)) :
  sensor_reads l = 0%nat ->
  sensor_reads (after_invoke OnTick (poll_prefix w ++ l)) = 2%nat.
Proof.
  intros H. unfold poll_prefix.
  cbn [app after_invoke is_invoke].
  change (?a :: ?b :: ?c :: ?d :: ?e :: l)
    with ([a; b; c; d; e] ++ l).
  rewrite sensor_reads_app, H. reflexivity.
Qed.

(** *** [loop()] with no serial input *)

Section LoopFacts.
Variable doMenu : World F -> World F.
Variable heartbeat : Z -> Z -> Z -> Z -> World F -> World F.
Hypothesis heartbeat_outside : outside_program (heartbeat PIN_HEARTBEAT 1 1 5).

Lemma loops_cons (c : Z * Z) (calls : list (Z * Z)) (w : World F) :
  loops doMenu heartbeat (c :: calls) w =
  loops doMenu heartbeat calls (loop doMenu heartbeat (fst c) (snd c) w).
Proof. reflexivity. Qed.

(** With no input waiting the menu is not entered. *)
Lemma loop_no_input (now : Z) (w : World F) :
  loop doMenu heartbeat 0 now w = heartbeat PIN_HEARTBEAT 1 1 5 (tick now w).
Proof. reflexivity. Qed.

Lemma loop_early (now : Z) (w : World F) :
  (now - lastPoll (thermostat w) < interval (thermostat w))%Z ->
  extends_quietly w (loop doMenu heartbeat 0 now w).
Proof.
  intros H. rewrite loop_no_input, tick_early by exact H.
  apply heartbeat_outside.
Qed.

(** Calls that all come too early add quiet events only. *)
Lemma loops_early (calls : list (Z * Z)) :
  forall w : World F,
    (forall c, In c calls -> fst c = 0%Z) ->
    (forall c, In c calls ->
               (snd c - lastPoll (thermostat w) < interval (thermostat w))%Z) ->
    extends_quietly w (loops doMenu heartbeat calls w).
Proof.
  induction calls as [|[av t] calls IH]; intros w Hav H;
    [apply extends_quietly_refl|].
  rewrite loops_cons. cbn [fst snd].
  assert (av = 0%Z) as -> by (apply (Hav (av, t)); left; reflexivity).
  assert (E : extends_quietly w (loop doMenu heartbeat 0 t w))
    by (apply loop_early; apply (H (0%Z, t)); left; reflexivity).
  apply (extends_quietly_trans _ _ _ E).
  apply IH.
  - intros c Hc. apply Hav. right. exact Hc.
  - intros c Hc. destruct E as (_ & Ht & _). rewrite Ht.
    apply H. right. exact Hc.
Qed.

(** Calls that lie pairwise less than one interval apart contain at most
    one poll; before it and after it there are quiet events only. *)
Lemma loops_window (calls : list (Z * Z)) :
  forall w : World F,
    (forall c, In c calls -> fst c = 0%Z) ->
    (forall a b, In a calls -> In b calls ->
                 (snd b - snd a < interval (thermostat w))%Z) ->
    let w' := loops doMenu heartbeat calls w in
    extends_quietly w w' \/
    exists l0 l1,
      trace w' = trace w ++ l0 ++ poll_prefix w ++ l1 /\
      quiet l0 /\
      invocations OnTick l1 = 0%nat /\ sensor_reads l1 = 0%nat /\
      adc_reads w' = (3 + adc_reads w)%nat.
Proof.
  induction calls as [|[av t] calls IH]; intros w Hav H; cbn zeta;
    [left; apply extends_quietly_refl|].
  rewrite loops_cons. cbn [fst snd].
  assert (av = 0%Z) as -> by (apply (Hav (av, t)); left; reflexivity).
  assert (Hav' : forall c, In c calls -> fst c = 0%Z)
    by (intros c Hc; apply Hav; right; exact Hc).
  destruct (Z_lt_ge_dec (t - lastPoll (thermostat w))
              (interval (thermostat w))) as [Hlt|Hge].
  - pose proof (loop_early t w Hlt) as E.
    set (u := loop doMenu heartbeat 0 t w) in *.
    destruct (IH u Hav') as [E'|(l0 & l1 & Htr & Hq & Ht & Hr & Hn)].
    + intros a b Ha Hb. destruct E as (_ & Eth & _). rewrite Eth.
      apply H; right; assumption.
    + left. apply (extends_quietly_trans _ _ _ E E').
    + right.
      pose proof (poll_prefix_ext _ _ E) as Hp.
      destruct E as (_ & _ & _ & _ & En & lq & Etr & Eq).
      exists (lq ++ l0), l1.
      rewrite Htr, Etr, Hp, Hn, En, <- !app_assoc.
      repeat split; try assumption.
      * apply quiet_app; assumption.
      * apply quiet_app; assumption.
  - right. rewrite loop_no_input, tick_due by lia.
    destruct (poll_effect t w)
      as (l & Ptr & Ptick & Preads & _ & Pn & _ & _ & Piv & Plp).
    set (u := poll t w) in *.
    pose proof (heartbeat_outside u) as E.
    set (u1 := heartbeat PIN_HEARTBEAT 1 1 5 u) in *.
    assert (E' : extends_quietly u1 (loops doMenu heartbeat calls u1)).
    { apply loops_early; [exact Hav'|].
      intros c Hc. destruct E as (_ & Eth & _). rewrite Eth, Piv, Plp.
      apply (H (0%Z, t) c); [left; reflexivity|right; exact Hc]. }
    destruct (extends_quietly_trans _ _ _ E E')
      as (_ & _ & _ & _ & En & lq & Etr & [Eq1 Eq2]).
    exists [], (l ++ lq).
    rewrite Etr, En, Ptr, Pn. cbn [app].
    split; [rewrite <- !app_assoc; reflexivity|].
    split; [apply quiet_nil|].
    rewrite invocations_app, sensor_reads_app, Ptick, Preads, Eq1,
      (Eq2 OnTick).
    repeat split.
Qed.
End LoopFacts.
End ProgramFacts.

(** ** The hysteresis on the polls of the specification *)

Section Hysteresis.
Variable lm : Libm.
Local Open Scope float_scope.

(** C2.  A controller in Armed-Idle with limits 18 and 22 and the heating
    off, whose successive polls observe 20, 17, 16, 19, 23, 21: the poll at
    17 invokes the "on" callback, which logs and writes HIGH to the heating
    pin; the poll at 23 invokes the "off" callback, which logs and writes
    LOW; the four other polls (16 while heating, and the in-band 20, 19,
    21) invoke nothing and write nothing.  Each callback is invoked exactly
    once over the six polls, and the controller ends in Armed-Idle with the
    heating off.  The callbacks of main.cpp are themselves guarded by
    [heatingIsOn]: called twice in a row, the second call does nothing. *)
Theorem heating_callbacks_edge_triggered (w : World float) :
  state (thermostat w) = ArmedIdle ->
  lowerLimit (thermostat w) = 18 ->
  upperLimit (thermostat w) = 22 ->
  heatingIsOn w = false ->
  let r := evaluations (AF := float_arith lm) [20; 17; 16; 19; 23; 21] w in
  fst r =
    [ [];
      [EvInvoke OnBelowLowerLimit; EvLogSwitch true false;
       EvDigitalWrite PIN_THERMOSTAT HIGH];
      [];
      [];
      [EvInvoke OnAboveUpperLimit; EvLogSwitch false true;
       EvDigitalWrite PIN_THERMOSTAT LOW];
      [] ] /\
  invocations OnBelowLowerLimit (new_events w (snd r)) = 1%nat /\
  invocations OnAboveUpperLimit (new_events w (snd r)) = 1%nat /\
  state (thermostat (snd r)) = ArmedIdle /\
  heatingIsOn (snd r) = false /\
  (forall u : World float,
      turnHeatingOn (turnHeatingOn u) = turnHeatingOn u /\
      turnHeatingOff (turnHeatingOff u) = turnHeatingOff u).
Proof.
  intros Hst Hlo Hhi Hh. cbn zeta.
  set (ev := evaluate (AF := float_arith lm)).
  set (on := [EvInvoke OnBelowLowerLimit; EvLogSwitch true false;
              EvDigitalWrite PIN_THERMOSTAT HIGH] : list (Event float)).
  set (off := [EvInvoke OnAboveUpperLimit; EvLogSwitch false true;
               EvDigitalWrite PIN_THERMOSTAT LOW] : list (Event float)).
  set (w1 := mkWorld (sensor w)
               (mkThermostat ArmedHeating 18 22 (interval (thermostat w))
                  (lastPoll (thermostat w)))
               true (adc_input w) (adc_reads w) (trace w ++ on)).
  set (w2 := mkWorld (sensor w)
               (mkThermostat ArmedIdle 18 22 (interval (thermostat w))
                  (lastPoll (thermostat w)))
               false (adc_input w) (adc_reads w) ((trace w ++ on) ++ off)).
  assert (E20 : ev 20 w = w).
  { apply evaluate_idle_not_below; [exact Hst|]. rewrite Hlo. reflexivity. }
  assert (E17 : ev 17 w = w1).
  { unfold ev. rewrite evaluate_idle_below; try assumption.
    - unfold w1. rewrite Hlo, Hhi. reflexivity.
    - rewrite Hlo. reflexivity. }
  assert (E16 : ev 16 w1 = w1)
    by (apply evaluate_heating_below_upper; reflexivity).
  assert (E19 : ev 19 w1 = w1)
    by (apply evaluate_heating_below_upper; reflexivity).
  assert (E23 : ev 23 w1 = w2)
    by (unfold ev; rewrite evaluate_heating_above; reflexivity).
  assert (E21 : ev 21 w2 = w2)
    by (apply evaluate_idle_not_below; reflexivity).
  assert (N1 : new_events w w1 = on) by (apply new_events_app; reflexivity).
  assert (N2 : new_events w1 w2 = off) by (apply new_events_app; reflexivity).
  assert (N : new_events w w2 = on ++ off)
    by (apply new_events_app; unfold w2; cbn [trace];
        symmetry; apply app_assoc).
  subst ev. cbn [evaluations].
  rewrite E20, E17, E16, E19, E23, E21.
  cbn [fst snd]. rewrite !new_events_same, N1, N2, N.
  repeat split.
  - apply turnHeatingOn_twice.
  - apply turnHeatingOff_twice.
Qed.
End Hysteresis.

Lemma heating_callbacks_edge_triggered_witness :
  let w := world0 thermostat_18_22 (fun _ => 2027%Z) in
  let r := evaluations (AF := ref_arith)
             [20; 17; 16; 19; 23; 21]%float w in
  fst r =
    [ [];
      [EvInvoke OnBelowLowerLimit; EvLogSwitch true false;
       EvDigitalWrite PIN_THERMOSTAT HIGH];
      [];
      [];
      [EvInvoke OnAboveUpperLimit; EvLogSwitch false true;
       EvDigitalWrite PIN_THERMOSTAT LOW];
      [] ] /\
  invocations OnBelowLowerLimit (new_events w (snd r)) = 1%nat /\
  invocations OnAboveUpperLimit (new_events w (snd r)) = 1%nat /\
  state (thermostat (snd r)) = ArmedIdle /\
  heatingIsOn (snd r) = false /\
  (forall u : World float,
      turnHeatingOn (turnHeatingOn u) = turnHeatingOn u /\
      turnHeatingOff (turnHeatingOff u) = turnHeatingOff u).
Proof.
  cbn zeta.
  apply (heating_callbacks_edge_triggered RefLibm.libm
           (world0 thermostat_18_22 (fun _ => 2027%Z)));
    reflexivity.
Defined.

(** ** Interval gating of [loop()] *)

Lemma calls100_no_input (c : Z * Z) : In c calls100 -> fst c = 0%Z.
Proof.
  unfold calls100. rewrite in_map_iff. intros (t & <- & _). reflexivity.
Qed.

Lemma calls100_window (a b : Z * Z) :
  In a calls100 -> In b calls100 -> (snd b - snd a < 1000)%Z.
Proof.
  unfold calls100, ticks100. rewrite !in_map_iff.
  intros (x & <- & Hx) (y & <- & Hy). cbn [snd].
  apply in_map_iff in Hx. apply in_map_iff in Hy.
  destruct Hx as (i & <- & Hi). destruct Hy as (j & <- & Hj).
  apply in_seq in Hi. apply in_seq in Hj. lia.
Qed.

Lemma heartbeat_blink_outside {F : Type} {AF : Arith F} (p n t d : Z) :
  outside_program (heartbeat_blink (F := F) p n t d).
Proof.
  intros w. unfold extends_quietly, heartbeat_blink, emit.
  cbn [sensor thermostat heatingIsOn adc_input adc_reads trace].
  repeat split.
  exists [EvDigitalWrite p HIGH; EvDigitalWrite p LOW].
  split; [rewrite <- app_assoc; reflexivity|].
  split; [reflexivity|intros cb; destruct cb; reflexivity].
Qed.

(** C4 (as the code has it).  [loop()] of main.cpp with no serial input
    waiting, for a [heartbeat] that stays outside the program state.

    Called before one interval has elapsed since the last poll, the tick of
    the controller does nothing, and the whole call takes no sample, invokes
    no callback and leaves sensor, controller and heating flag as they
    were.

    Called when at least one interval has elapsed, it polls once.  The
    events of the poll are: the read of the controller, the invocation of
    the data callback, the events of [processData] (which takes two samples
    of its own: by [sensor.readSensor()] and inside [sensor.printData()]),
    then the events of one hysteresis evaluation, at the temperature of the
    last sample: the row of the table [hysteresis] for the state, the limits
    and the heating flag, which also gives the new state and the new flag.
    That makes one invocation of the data callback, three samples in all,
    two of them after the invocation; the clock value becomes the time of
    the last poll and the limits and the interval are kept.

    Calls that lie pairwise less than one interval apart poll at most once:
    at most one invocation of the data callback, and three samples for each
    invocation, two of them taken by the data callback itself. *)
Theorem loop_interval_gated {F : Type} {AF : Arith F}
    (doMenu : World F -> World F)
    (heartbeat : Z -> Z -> Z -> Z -> World F -> World F)
    (w : World F) (now : Z) (calls : list (Z * Z)) :
  outside_program (heartbeat PIN_HEARTBEAT 1%Z 1%Z 5%Z) ->
  ((now - lastPoll (thermostat w) < interval (thermostat w))%Z ->
     let w' := loop doMenu heartbeat 0 now w in
     tick now w = w /\
     quiet (new_events w w') /\
     sensor w' = sensor w /\ thermostat w' = thermostat w /\
     heatingIsOn w' = heatingIsOn w /\ adc_reads w' = adc_reads w) /\
  ((interval (thermostat w) <= now - lastPoll (thermostat w))%Z ->
     let n := adc_reads w in
     let p := pin (_adc (sensor w)) in
     let w1 := emit (EvInvoke OnTick) (sensor_readSensor w) in
     let s3 := readSensor (adc_input w (2 + n)%nat)
                 (readSensor (adc_input w (1 + n)%nat)
                    (readSensor (adc_input w n) (sensor w))) in
     let th := thermostat w in
     let h := hysteresis (state th) (lowerLimit th) (upperLimit th)
                (tCelsius (_sData s3)) (heatingIsOn w) in
     let w' := loop doMenu heartbeat 0 now w in
     let ev := new_events w w' in
     (exists l,
         ev = [EvAnalogRead p (adc_input w n); EvInvoke OnTick]
              ++ new_events w1 (processData w1) ++ snd h ++ l /\
         quiet l) /\
     sensor_reads (new_events w1 (processData w1)) = 2%nat /\
     invocations OnTick ev = 1%nat /\
     sensor_reads ev = 3%nat /\
     sensor_reads (after_invoke OnTick ev) = 2%nat /\
     (invocations OnBelowLowerLimit ev + invocations OnAboveUpperLimit ev
      <= 1)%nat /\
     sensor w' = s3 /\
     thermostat w' =
       mkThermostat (fst (fst h)) (lowerLimit th) (upperLimit th)
         (interval th) now /\
     heatingIsOn w' = snd (fst h) /\
     adc_reads w' = (3 + n)%nat) /\
  ((forall c, In c calls -> fst c = 0%Z) ->
   (forall a b, In a calls -> In b calls ->
                (snd b - snd a < interval (thermostat w))%Z) ->
     let w' := loops doMenu heartbeat calls w in
     let ev := new_events w w' in
     (invocations OnTick ev <= 1)%nat /\
     (sensor_reads ev <= 3)%nat /\
     sensor_reads ev = (3 * invocations OnTick ev)%nat /\
     sensor_reads (after_invoke OnTick ev) = (2 * invocations OnTick ev)%nat /\
     adc_reads w' = (adc_reads w + sensor_reads ev)%nat).
Proof.
  intros Hhb. split; [|split].
  - intros Hearly. cbn zeta.
    pose proof (loop_early doMenu heartbeat Hhb now w Hearly) as E.
    pose proof (extends_quietly_events _ _ E) as Hq.
    destruct E as (Hs & Hth & Hh & _ & Hn & _).
    split; [apply tick_early; exact Hearly|].
    split; [exact Hq|]. split; [exact Hs|]. split; [exact Hth|].
    split; [exact Hh|exact Hn].
  - intros Hdue. cbn zeta.
    rewrite (loop_no_input doMenu heartbeat), tick_due by exact Hdue.
    pose proof (poll_table now w) as P. cbn zeta in P.
    set (s3 := readSensor (adc_input w (2 + adc_reads w)%nat) _) in *.
    set (h := hysteresis _ _ _ (tCelsius (_sData s3)) _) in *.
    set (w1 := emit (EvInvoke OnTick) (sensor_readSensor w)).
    assert (Hpd : [EvAnalogRead (pin (_adc (sensor w)))
                     (adc_input w (adc_reads w)); EvInvoke OnTick]
                  ++ new_events w1 (processData w1) = poll_prefix w).
    { rewrite (new_events_app w1 (processData w1) _
                 (f_equal trace (processData_effect w1))).
      reflexivity. }
    assert (Hpd2 : sensor_reads (new_events w1 (processData w1)) = 2%nat).
    { rewrite (new_events_app w1 (processData w1) _
                 (f_equal trace (processData_effect w1))).
      reflexivity. }
    destruct (hysteresis_counts (state (thermostat w))
                (lowerLimit (thermostat w)) (upperLimit (thermostat w))
                (tCelsius (_sData s3)) (heatingIsOn w)) as [Hc1 Hc2].
    fold h in Hc1, Hc2.
    assert (Hheat : (invocations OnBelowLowerLimit (snd h)
                     + invocations OnAboveUpperLimit (snd h) <= 1)%nat).
    { unfold h, hysteresis.
      destruct (state (thermostat w)); [cbn; lia| |];
        match goal with
        | |- context [if ?c then _ else _] =>
            destruct c; [destruct (heatingIsOn w)|]; cbn; lia
        end. }
    destruct (Hhb (poll now w))
      as (Es & Eth & Eh & _ & En & lq & Etr & [Eq1 Eq2]).
    destruct (poll_prefix_counts w) as (Pt & Pr & Pb & Pa).
    assert (Hev : new_events w (heartbeat PIN_HEARTBEAT 1%Z 1%Z 5%Z (poll now w))
                  = poll_prefix w ++ snd h ++ lq).
    { apply new_events_app. rewrite Etr, P. cbn [trace].
      rewrite <- !app_assoc. reflexivity. }
    rewrite Hev, Es, Eth, Eh, En, P.
    cbn [sensor thermostat heatingIsOn adc_reads].
    split.
    { exists lq. split; [|split; assumption].
      rewrite <- Hpd, <- app_assoc. reflexivity. }
    split; [exact Hpd2|].
    rewrite after_invoke_poll_prefix
      by (rewrite sensor_reads_app, Hc2, Eq1; reflexivity).
    rewrite !invocations_app, !sensor_reads_app, Pt, Pr, Pb, Pa, Hc1, Hc2,
      Eq1, !Eq2.
    repeat split; lia.
  - intros Hav Hwin. cbn zeta.
    destruct (loops_window doMenu heartbeat Hhb calls w Hav Hwin)
      as [E|(l0 & l1 & Htr & [Hq1 Hq2] & Ht & Hr & Hn)].
    + pose proof (extends_quietly_events _ _ E) as [Hq1 Hq2].
      destruct E as (_ & _ & _ & _ & Hn & _).
      rewrite Hn, Hq1, (Hq2 OnTick).
      assert (Ha : after_invoke OnTick
                     (new_events w (loops doMenu heartbeat calls w)) = []).
      { rewrite <- (app_nil_r (new_events _ _)).
        rewrite after_invoke_app by apply Hq2. reflexivity. }
      rewrite Ha. cbn. repeat split; lia.
    + destruct (poll_prefix_counts w) as (Pt & Pr & _).
      rewrite (new_events_app _ _ _ Htr), Hn.
      rewrite after_invoke_app by apply Hq2.
      rewrite after_invoke_poll_prefix by exact Hr.
      rewrite !invocations_app, !sensor_reads_app, Pt, Pr, Ht, Hr, Hq1,
        (Hq2 OnTick).
      repeat split; lia.
Qed.

Lemma loop_interval_gated_witness :
  let w := world0 (AF := ref_arith) thermostat_18_22 (fun _ => 2600%Z) in
  let lp := loop doMenu_disable heartbeat_blink in
  outside_program (F := float) (heartbeat_blink PIN_HEARTBEAT 1%Z 1%Z 5%Z) /\
  (tick 999 w = w /\ quiet (new_events w (lp 0%Z 999%Z w))) /\
  (new_events w (lp 0%Z 1000%Z w) =
     poll_prefix w ++
     [EvInvoke OnBelowLowerLimit; EvLogSwitch true false;
      EvDigitalWrite PIN_THERMOSTAT HIGH] ++
     [EvDigitalWrite PIN_HEARTBEAT HIGH; EvDigitalWrite PIN_HEARTBEAT LOW] /\
   invocations OnTick (new_events w (lp 0%Z 1000%Z w)) = 1%nat /\
   sensor_reads (new_events w (lp 0%Z 1000%Z w)) = 3%nat /\
   state (thermostat (lp 0%Z 1000%Z w)) = ArmedHeating /\
   lastPoll (thermostat (lp 0%Z 1000%Z w)) = 1000%Z) /\
  ((invocations OnTick
      (new_events w (loops doMenu_disable heartbeat_blink calls100 w))
    <= 1)%nat /\
   (sensor_reads
      (new_events w (loops doMenu_disable heartbeat_blink calls100 w))
    <= 3)%nat).
Proof.
  cbn zeta.
  set (w := world0 (AF := ref_arith) thermostat_18_22 (fun _ => 2600%Z)).
  pose proof (heartbeat_blink_outside (F := float) PIN_HEARTBEAT 1%Z 1%Z 5%Z) as Hb.
  split; [exact Hb|split; [|split]].
  - destruct (proj1 (loop_interval_gated doMenu_disable heartbeat_blink
                       w 999%Z calls100 Hb)) as (H1 & H2 & _).
    + cbn. lia.
    + split; assumption.
  - destruct (proj1 (proj2 (loop_interval_gated doMenu_disable
                              heartbeat_blink w 1000%Z calls100 Hb)))
      as (_ & _ & H3 & H4 & _ & _ & _ & H8 & _).
    + cbn. lia.
    + split; [vm_compute; reflexivity|].
      split; [exact H3|]. split; [exact H4|].
      rewrite H8. split; [vm_compute; reflexivity|reflexivity].
  - destruct (proj2 (proj2 (loop_interval_gated doMenu_disable
                              heartbeat_blink w 1000%Z calls100 Hb)))
      as (H1 & H2 & _).
    + apply calls100_no_input.
    + intros a b. apply calls100_window.
    + split; assumption.
Defined.

(** C4, counterexample.  The program of main.cpp with the thermostat set to
    poll every 1000 ms, last poll at 0, no serial input: the 100 calls of
    [loop()] at 1000, 1001, ..., 1099 lie within 99 ms.  The first one
    polls, the others do not, and there is one invocation of the data
    callback.  [processData] alone, as main.cpp has it, takes two samples;
    in the run two samples follow the invocation of the data callback, and
    with the read of the controller the run takes three: more than one. *)
Lemma loop_single_read_counterexample :
  let w := world0 (AF := ref_arith) thermostat_18_22 (fun _ => 2027%Z) in
  let w' := loops doMenu_disable heartbeat_blink calls100 w in
  length calls100 = 100%nat /\
  (forall c, In c calls100 -> fst c = 0%Z) /\
  (forall a b, In a calls100 -> In b calls100 ->
               (snd b - snd a < interval (thermostat w))%Z) /\
  invocations OnTick (trace w') = 1%nat /\
  sensor_reads (new_events w (processData w)) = 2%nat /\
  sensor_reads (after_invoke OnTick (trace w')) = 2%nat /\
  sensor_reads (trace w') = 3%nat /\
  adc_reads w' = 3%nat /\
  ~ (sensor_reads (new_events w (processData w)) <= 1)%nat /\
  ~ (sensor_reads (after_invoke OnTick (trace w')) <= 1)%nat /\
  ~ (sensor_reads (trace w') <= 1)%nat.
Proof.
  cbn zeta.
  split; [reflexivity|].
  split; [apply calls100_no_input|].
  split; [intros a b; apply calls100_window|].
  split; [vm_compute; reflexivity|].
  split; [vm_compute; reflexivity|].
  split; [vm_compute; reflexivity|].
  split; [vm_compute; reflexivity|].
  split; [vm_compute; reflexivity|].
  split; [vm_compute; lia|].
  split; vm_compute; lia.
Qed.

(** * Further properties of the code *)

(** ** What a read depends on *)

Section ReadFacts.
Context {F : Type} {AF : Arith F}.
Local Open Scope arith_scope.

(** [readSensor] uses the parameters, [Roo] and the pin of the state it
    starts from, and nothing else of it. *)
Lemma readSensor_ext (raw : Z) (s1 s2 : NTCSensor F) :
  _ntc s1 = _ntc s2 -> _adc s1 = _adc s2 ->
  Roo (_sData s1) = Roo (_sData s2) ->
  sensorPin (_sData s1) = sensorPin (_sData s2) ->
  readSensor raw s1 = readSensor raw s2.
Proof.
  intros Hn Ha HR Hp. unfold readSensor. rewrite Hn, Ha, HR, Hp.
  reflexivity.
Qed.

Lemma call_sensorPin (c : Call) (s : NTCSensor F) :
  sensorPin (_sData (call c s)) = sensorPin (_sData s).
Proof. destruct c; reflexivity. Qed.

Lemma calls_sensorPin (cs : list Call) :
  forall s : NTCSensor F,
    sensorPin (_sData (calls cs s)) = sensorPin (_sData s).
Proof.
  induction cs as [|c cs IH]; intros s; [reflexivity|].
  unfold calls in *. cbn [fold_left]. rewrite IH. apply call_sensorPin.
Qed.

(** X1.  The record a [readSensor] leaves does not depend on the reads,
    prints and [getCelsius] calls made before it: after any such calls, a
    read of a sample leaves the state a read of that sample would have
    left without them.  In particular a repeated read of the same sample
    changes nothing, and the value [getCelsius] then returns is that of the
    last sample alone.  The same holds for a record whose members were
    overwritten through [getDataReference], as long as [Roo] and the pin
    were left as they were. *)
Theorem readSensor_forgets_history (cs : list Call) (raw : Z)
    (s : NTCSensor F) (written : SensorData F) :
  readSensor raw (calls cs s) = readSensor raw s /\
  readSensor raw (readSensor raw s) = readSensor raw s /\
  fst (getCelsius (readSensor raw (calls cs s))) =
  fst (getCelsius (readSensor raw s)) /\
  (Roo written = Roo (_sData s) ->
   sensorPin written = sensorPin (_sData s) ->
   readSensor raw (mkNTCSensor (_ntc s) (_adc s) written) =
   readSensor raw s).
Proof.
  assert (H : readSensor raw (calls cs s) = readSensor raw s).
  { destruct (calls_params cs s) as [Hn Ha].
    apply readSensor_ext; try assumption.
    - apply calls_Roo.
    - apply calls_sensorPin. }
  split; [exact H|split; [reflexivity|split]].
  - rewrite H. reflexivity.
  - intros HR Hp. apply readSensor_ext; try reflexivity; assumption.
Qed.

(** X2.  [setup] re-derives everything from the parameters: whatever the
    record held before (any earlier reads, a stale [Roo], another pin),
    the state after [setup] on a sample is the state a freshly constructed
    sensor with the same parameters has after [setup] on that sample.  So
    [setup] after [setNTCbeta] stores the [Roo] of the new [beta]. *)
Theorem setup_reinitialises (cs : list Call) (raw b : Z)
    (s : NTCSensor F) (sd : SensorData F) :
  setup raw (calls cs s) =
    setup raw (NTCSensor_new (_ntc s) (_adc s) sd) /\
  sensorPin (_sData (setup raw s)) = pin (_adc s) /\
  Roo (_sData (setup raw (setNTCbeta b s))) =
    spec_Roo (mkParamsNTC (Rs (_ntc s)) (Ro (_ntc s)) b).
Proof.
  repeat split.
  destruct (calls_params cs s) as [Hn Ha].
  unfold setup. apply readSensor_ext; cbn [_ntc _adc _sData NTCSensor_new].
  - exact Hn.
  - exact Ha.
  - rewrite Hn. reflexivity.
  - rewrite Ha. reflexivity.
Qed.
End ReadFacts.

(** ** The samples of the program's ADC, in IEEE arithmetic *)

Section SampleRange.
Variable lm : Libm.
Local Open Scope float_scope.

(** [v], [vin], [k] and [Rt] of a read depend on the parameters and the
    sample only, not on the libm and not on the record. *)
Lemma divider_read_members (s : NTCSensor float) (raw : Z) :
  let d := _sData (readSensorF lm raw s) in
  let d' := divider_read (_ntc s) (_adc s) raw in
  v d = v d' /\ vin d = vin d' /\ k d = k d' /\ Rt d = Rt d'.
Proof. cbn zeta. repeat split. Qed.

Lemma vin_check_all (adc : ParamsADC float) (raw : Z) :
  In adc adcEsp32_all -> (0 <= raw < 4096)%Z -> vin_check adc raw = true.
Proof.
  intros Hin Hraw.
  assert (H : forallb (fun a => all_bits 12 0 (vin_check a)) adcEsp32_all
              = true) by (vm_compute; reflexivity).
  rewrite forallb_forall in H.
  apply (all_bits_spec (vin_check adc) 12 0%Z (H adc Hin)).
  cbn. lia.
Qed.

(** X3.  In the arithmetic of the code, for each of the four ADC parameter
    sets of main.cpp and every sample of the 12-bit ADC: sample 0
    reconstructs the offset voltage, the step [v] is positive, the voltage
    of the next sample is strictly larger, and all voltages stay below
    [Vcc]. *)
Theorem vin_increasing (s : NTCSensor float) (raw : Z) :
  In (_adc s) adcEsp32_all ->
  (0 <= raw < 4095)%Z ->
  let d0 := _sData (readSensorF lm 0 s) in
  let d1 := _sData (readSensorF lm raw s) in
  let d2 := _sData (readSensorF lm (raw + 1) s) in
  vin d0 = Voff (_adc s) /\
  PrimFloat.ltb 0 (v d1) = true /\
  PrimFloat.ltb (vin d1) (vin d2) = true /\
  PrimFloat.ltb (vin d2) (Vcc (_adc s)) = true.
Proof.
  intros Hin Hraw. cbn zeta.
  assert (H0 : vin (_sData (readSensorF lm 0 s)) = Voff (_adc s)).
  { destruct (divider_read_members s 0) as (_ & -> & _).
    unfold adcEsp32_all in Hin. cbn [In] in Hin.
    destruct Hin as [<-|[<-|[<-|[<-|[]]]]]; vm_compute; reflexivity. }
  pose proof (vin_check_all (_adc s) raw Hin ltac:(lia)) as H.
  unfold vin_check in H. cbn zeta in H.
  destruct (Z.eqb_spec raw 4095) as [E|_]; [lia|].
  cbn [orb] in H. rewrite !andb_true_iff in H.
  destruct H as ((H1 & H2) & H3).
  destruct (divider_read_members s raw) as (-> & -> & _).
  destruct (divider_read_members s (raw + 1)) as (_ & -> & _).
  split; [exact H0|]. split; [|split].
  - destruct (_adc s); exact H1.
  - destruct (_adc s); exact H2.
  - destruct (_adc s); exact H3.
Qed.

Lemma Rt_check_all (g : bool) (raw : Z) :
  is_uint16 raw -> Rt_check g raw = true.
Proof.
  intros Hraw.
  assert (H : all_uint16 (Rt_check true) && all_uint16 (Rt_check false)
              = true) by (vm_compute; reflexivity).
  apply andb_true_iff in H. destruct H as [Ht Hf].
  destruct g; [exact (all_uint16_spec _ Ht raw Hraw)
              |exact (all_uint16_spec _ Hf raw Hraw)].
Qed.

Lemma Rt_step_check_all (raw : Z) :
  (0 <= raw < 8192)%Z -> Rt_step_check raw = true.
Proof.
  intros Hraw.
  apply (all_bits_spec Rt_step_check 13 0%Z); [vm_compute; reflexivity|].
  cbn. lia.
Qed.

(** X4.  In the arithmetic of the code, for the NTC and ADC parameters of
    the sensor of main.cpp ([ntcRs10k], [adcEsp32_11]) in either wiring and
    every [uint16_t] sample: up to sample 4228 (the 12-bit range of the ADC
    included) the reconstructed voltage lies strictly between 0 and [Vcc]
    and [k] and [Rt] are positive and finite; from sample 4229 on the
    voltage is above [Vcc] and [k] and [Rt] are negative, so that the
    argument of [log] is not positive.  Below sample 4228, [Rt] is strictly
    increasing in the sample with the NTC to ground and strictly decreasing
    with the NTC to supply. *)
Theorem Rt_domain (s : NTCSensor float) (g : bool) (raw : Z) :
  _ntc s = ntcRs10k ->
  _adc s = set_ntcToGround g adcEsp32_11 ->
  is_uint16 raw ->
  let d := _sData (readSensorF lm raw s) in
  let d2 := _sData (readSensorF lm (raw + 1) s) in
  ((raw <= 4228)%Z ->
     PrimFloat.ltb 0 (vin d) = true /\ PrimFloat.ltb (vin d) 3300 = true /\
     is_pos_finite (k d) = true /\ is_pos_finite (Rt d) = true) /\
  ((4229 <= raw)%Z ->
     PrimFloat.ltb 3300 (vin d) = true /\ PrimFloat.ltb (k d) 0 = true /\
     PrimFloat.ltb (Rt d) 0 = true) /\
  ((raw < 4228)%Z ->
     if g then PrimFloat.ltb (Rt d) (Rt d2) = true
     else PrimFloat.ltb (Rt d2) (Rt d) = true).
Proof.
  intros Hntc Hadc Hraw. cbn zeta.
  destruct (divider_read_members s raw) as (_ & -> & -> & ->).
  destruct (divider_read_members s (raw + 1)) as (_ & _ & _ & ->).
  rewrite Hntc, Hadc.
  pose proof (Rt_check_all g raw Hraw) as H.
  unfold Rt_check in H. cbn zeta in H.
  split; [|split].
  - intros Hle. destruct (Z.leb_spec raw 4228) as [_|Hgt]; [|lia].
    rewrite !andb_true_iff in H. destruct H as (((H1 & H2) & H3) & H4).
    repeat split; assumption.
  - intros Hge. destruct (Z.leb_spec raw 4228) as [Hle|_]; [lia|].
    rewrite !andb_true_iff in H. destruct H as (((H1 & H2) & H3) & H4).
    repeat split; assumption.
  - intros Hlt.
    pose proof (Rt_step_check_all raw) as Hs.
    unfold Rt_step_check in Hs. cbn zeta in Hs.
    destruct (Z.leb_spec 4228 raw) as [Hge|_]; [lia|].
    cbn [orb] in Hs.
    unfold is_uint16 in Hraw.
    specialize (Hs ltac:(lia)).
    apply andb_true_iff in Hs. destruct Hs as [Hg Hf].
    destruct g; [exact Hg|exact Hf].
Qed.
End SampleRange.

(** The sensor of main.cpp at mid-scale, and at the sample after it. *)
Lemma vin_increasing_witness :
  let s := NTCSensor_new (AF := ref_arith) ntcRs10k adcEsp32_11
             sensorData0 in
  let d0 := _sData (readSensorF RefLibm.libm 0 s) in
  let d1 := _sData (readSensorF RefLibm.libm 2047 s) in
  let d2 := _sData (readSensorF RefLibm.libm (2047 + 1) s) in
  vin d0 = Voff (_adc s) /\
  PrimFloat.ltb 0 (v d1) = true /\
  PrimFloat.ltb (vin d1) (vin d2) = true /\
  PrimFloat.ltb (vin d2) (Vcc (_adc s)) = true.
Proof.
  cbn zeta.
  apply (vin_increasing RefLibm.libm
           (NTCSensor_new (AF := ref_arith) ntcRs10k adcEsp32_11
              sensorData0) 2047).
  - right. right. right. left. reflexivity.
  - lia.
Defined.

Lemma Rt_domain_witness :
  let s := NTCSensor_new (AF := ref_arith) ntcRs10k
             (set_ntcToGround false adcEsp32_11) sensorData0 in
  let d := _sData (readSensorF RefLibm.libm 5000 s) in
  PrimFloat.ltb 3300 (vin d) = true /\ PrimFloat.ltb (k d) 0 = true /\
  PrimFloat.ltb (Rt d) 0 = true.
Proof.
  cbn zeta.
  apply (proj1 (proj2 (Rt_domain RefLibm.libm
           (NTCSensor_new (AF := ref_arith) ntcRs10k
              (set_ntcToGround false adcEsp32_11) sensorData0)
           false 5000 eq_refl eq_refl
           ltac:(unfold is_uint16; lia)))).
  lia.
Defined.

(** ** The handlers of main.cpp, in any order *)

Section HandlerFacts.
Context {F : Type} {AF : Arith F}.

Lemma heater_writes_app (l1 l2 : list (Event F)) :
  heater_writes (l1 ++ l2) = heater_writes l1 ++ heater_writes l2.
Proof.
  induction l1 as [|e l1 IH]; [reflexivity|].
  destruct e as [p r|p lv|on was| | line| |cb];
    cbn [heater_writes app]; try exact IH.
  destruct (p =? PIN_THERMOSTAT)%Z; cbn [app]; rewrite IH; reflexivity.
Qed.

Lemma alternating_snoc (l : list bool) (b d : bool) :
  alternating l = true -> (l <> [] -> last l d = negb b) ->
  alternating (l ++ [b]) = true.
Proof.
  induction l as [|a l IH]; intros Halt Hlast; [reflexivity|].
  destruct l as [|a' l].
  - cbn. specialize (Hlast ltac:(discriminate)). cbn in Hlast.
    subst a. destruct b; reflexivity.
  - cbn [alternating app] in *. apply andb_true_iff in Halt as [H1 H2].
    rewrite H1. cbn [andb]. apply IH; [exact H2|].
    intros _. apply Hlast. discriminate.
Qed.

Lemma readSensor_same_setup (raw : Z) (s1 s2 : NTCSensor F) :
  same_setup s1 s2 -> readSensor raw s1 = readSensor raw s2.
Proof. intros (Hn & Ha & HR & Hp). apply readSensor_ext; assumption. Qed.

Lemma same_setup_read (raw : Z) (s : NTCSensor F) :
  same_setup (readSensor raw s) s.
Proof. repeat split. Qed.

(** What one handler call does to everything but the trace. *)
Lemma callback_effect (cb : Callback) (w : World F) :
  thermostat (callback cb w) = thermostat w /\
  adc_input (callback cb w) = adc_input w /\
  match cb with
  | OnTick =>
      adc_reads (callback cb w) = (2 + adc_reads w)%nat /\
      sensor (callback cb w) =
        readSensor (adc_input w (1 + adc_reads w)%nat) (sensor w) /\
      heatingIsOn (callback cb w) = heatingIsOn w /\
      heater_writes (new_events w (callback cb w)) = []
  | OnBelowLowerLimit =>
      adc_reads (callback cb w) = adc_reads w /\
      sensor (callback cb w) = sensor w /\
      heatingIsOn (callback cb w) = true /\
      heater_writes (new_events w (callback cb w)) =
        (if heatingIsOn w then [] else [HIGH])
  | OnAboveUpperLimit =>
      adc_reads (callback cb w) = adc_reads w /\
      sensor (callback cb w) = sensor w /\
      heatingIsOn (callback cb w) = false /\
      heater_writes (new_events w (callback cb w)) =
        (if heatingIsOn w then [LOW] else [])
  end.
Proof.
  destruct cb; cbn [callback].
  - rewrite processData_effect. cbn zeta.
    cbn [thermostat adc_input adc_reads sensor heatingIsOn].
    erewrite new_events_app by reflexivity.
    repeat split.
  - destruct (heatingIsOn w) eqn:Hh.
    + rewrite (turnHeatingOn_on w Hh), new_events_same.
      repeat split; try exact Hh.
    + rewrite (turnHeatingOn_off w Hh).
      erewrite new_events_app by reflexivity. repeat split.
  - destruct (heatingIsOn w) eqn:Hh.
    + rewrite (turnHeatingOff_on w Hh).
      erewrite new_events_app by reflexivity. repeat split.
    + rewrite (turnHeatingOff_off w Hh), new_events_same.
      repeat split; try exact Hh.
Qed.

Lemma callback_trace (cb : Callback) (w : World F) :
  exists l, trace (callback cb w) = trace w ++ l.
Proof.
  destruct cb; cbn [callback].
  - rewrite processData_effect. cbn zeta. cbn [trace]. eexists. reflexivity.
  - destruct (heatingIsOn w) eqn:Hh.
    + rewrite (turnHeatingOn_on w Hh). exists []. symmetry. apply app_nil_r.
    + rewrite (turnHeatingOn_off w Hh). cbn [trace]. eexists. reflexivity.
  - destruct (heatingIsOn w) eqn:Hh.
    + rewrite (turnHeatingOff_on w Hh). cbn [trace]. eexists. reflexivity.
    + rewrite (turnHeatingOff_off w Hh). exists []. symmetry.
      apply app_nil_r.
Qed.

Lemma run_callbacks_cons (cb : Callback) (cbs : list Callback)
    (w : World F) :
  run_callbacks (cb :: cbs) w = run_callbacks cbs (callback cb w).
Proof. reflexivity. Qed.

(** X7.  [processData] takes two ADC samples and keeps only the second:
    the sensor state it leaves is the one a single read of the second
    sample gives, and the line it prints is the line of that state.  It
    leaves the thermostat and the heating flag alone and does not drive
    the heating pin. *)
Theorem processData_keeps_last_sample (w : World F) :
  let w' := processData w in
  let r2 := adc_input w (1 + adc_reads w)%nat in
  sensor w' = readSensor r2 (sensor w) /\
  adc_reads w' = (2 + adc_reads w)%nat /\
  In (EvPrintData (data_line (_sData (sensor w')))) (new_events w w') /\
  sensor_reads (new_events w w') = 2%nat /\
  heater_writes (new_events w w') = [] /\
  thermostat w' = thermostat w /\
  heatingIsOn w' = heatingIsOn w.
Proof.
  cbn zeta.
  destruct (callback_effect OnTick w) as (Hth & _ & Hn & Hs & Hh & Hw).
  cbn [callback] in *.
  repeat split; try assumption.
  - rewrite processData_effect. cbn zeta.
    erewrite new_events_app by reflexivity.
    cbn [sensor]. right. right. right. left. reflexivity.
  - rewrite processData_effect. cbn zeta.
    erewrite new_events_app by reflexivity. reflexivity.
Qed.

(** The state of the heater after some handler calls that follow
    [initOutputPins]: the levels written since, the flag. *)
Lemma heater_invariant (cbs : list Callback) :
  forall (w0 w : World F) (evs : list (Event F)),
    trace w = trace w0 ++ evs ->
    heater_writes evs <> [] ->
    last (heater_writes evs) LOW = heatingIsOn w ->
    alternating (heater_writes evs) = true ->
    let w' := run_callbacks cbs w in
    exists evs',
      trace w' = trace w0 ++ evs' /\
      heater_writes evs' <> [] /\
      last (heater_writes evs') LOW = heatingIsOn w' /\
      alternating (heater_writes evs') = true /\
      hd_error (heater_writes evs') = hd_error (heater_writes evs).
Proof.
  induction cbs as [|cb cbs IH]; intros w0 w evs Htr Hne Hlast Halt;
    cbn zeta.
  - exists evs. repeat split; assumption.
  - rewrite run_callbacks_cons.
    destruct (callback_trace cb w) as (l & Hl).
    pose proof (callback_effect cb w) as (_ & _ & Heff).
    rewrite (new_events_app _ _ _ Hl) in Heff.
    assert (Hstep :
      heater_writes (evs ++ l) <> [] /\
      last (heater_writes (evs ++ l)) LOW = heatingIsOn (callback cb w) /\
      alternating (heater_writes (evs ++ l)) = true /\
      hd_error (heater_writes (evs ++ l)) = hd_error (heater_writes evs)).
    { rewrite heater_writes_app.
      destruct cb; destruct Heff as (_ & _ & Hflag & Hw); rewrite Hw, Hflag.
      - rewrite app_nil_r. repeat split; assumption.
      - destruct (heatingIsOn w) eqn:Hh.
        + rewrite app_nil_r. repeat split; assumption.
        + repeat split.
          * intros E. apply app_eq_nil in E as [_ E]. discriminate.
          * apply last_last.
          * apply (alternating_snoc _ _ LOW); [exact Halt|].
            intros _. exact Hlast.
          * destruct (heater_writes evs); [contradiction|reflexivity].
      - destruct (heatingIsOn w) eqn:Hh.
        + repeat split.
          * intros E. apply app_eq_nil in E as [_ E]. discriminate.
          * apply last_last.
          * apply (alternating_snoc _ _ LOW); [exact Halt|].
            intros _. exact Hlast.
          * destruct (heater_writes evs); [contradiction|reflexivity].
        + rewrite app_nil_r. repeat split; assumption. }
    destruct Hstep as (Hne' & Hlast' & Halt' & Hhd').
    destruct (IH w0 (callback cb w) (evs ++ l)) as (evs' & H1 & H2 & H3 & H4 & H5);
      try assumption.
    + rewrite Hl, Htr, app_assoc. reflexivity.
    + exists evs'. repeat split; try assumption. congruence.
Qed.

(** X8.  After [initOutputPins], whatever handlers are called and in
    whatever order, the heating flag is the level the heating pin was last
    driven to, and no level is ever written twice in a row: the writes
    since (and including) the initial LOW alternate. *)
Theorem heater_pin_follows_flag (cbs : list Callback) (w0 : World F) :
  heatingIsOn w0 = false ->
  let w := run_callbacks cbs (initOutputPins w0) in
  let ws := heater_writes (new_events w0 w) in
  heater_level LOW (new_events w0 w) = heatingIsOn w /\
  alternating ws = true /\
  hd_error ws = Some LOW.
Proof.
  intros Hoff. cbn zeta.
  destruct (heater_invariant cbs w0 (initOutputPins w0)
              [EvDigitalWrite PIN_THERMOSTAT LOW])
    as (evs & Htr & _ & Hlast & Halt & Hhd).
  - reflexivity.
  - discriminate.
  - cbn. symmetry. exact Hoff.
  - reflexivity.
  - rewrite (new_events_app _ _ _ Htr). unfold heater_level.
    repeat split; assumption.
Qed.

End HandlerFacts.

Lemma heater_pin_follows_flag_witness :
  let w0 := world0 (AF := ref_arith) thermostat_18_22 (fun _ => 2027%Z) in
  let cbs := [OnBelowLowerLimit; OnBelowLowerLimit; OnTick;
              OnAboveUpperLimit; OnAboveUpperLimit; OnBelowLowerLimit] in
  let w := run_callbacks cbs (initOutputPins w0) in
  let ws := heater_writes (new_events w0 w) in
  heater_level LOW (new_events w0 w) = heatingIsOn w /\
  alternating ws = true /\
  hd_error ws = Some LOW.
Proof.
  cbn zeta.
  apply (heater_pin_follows_flag
           [OnBelowLowerLimit; OnBelowLowerLimit; OnTick;
            OnAboveUpperLimit; OnAboveUpperLimit; OnBelowLowerLimit]
           (world0 (AF := ref_arith) thermostat_18_22 (fun _ => 2027%Z))).
  reflexivity.
Defined.

Section HandlerSamples.
Context {F : Type} {AF : Arith F}.

Lemma callback_reads (cb : Callback) (w : World F) :
  sensor_reads (new_events w (callback cb w)) =
  match cb with OnTick => 2%nat | _ => 0%nat end.
Proof.
  destruct cb; cbn [callback].
  - rewrite processData_effect. cbn zeta.
    erewrite new_events_app by reflexivity. reflexivity.
  - destruct (heatingIsOn w) eqn:Hh.
    + rewrite (turnHeatingOn_on w Hh), new_events_same. reflexivity.
    + rewrite (turnHeatingOn_off w Hh).
      erewrite new_events_app by reflexivity. reflexivity.
  - destruct (heatingIsOn w) eqn:Hh.
    + rewrite (turnHeatingOff_on w Hh).
      erewrite new_events_app by reflexivity. reflexivity.
    + rewrite (turnHeatingOff_off w Hh), new_events_same. reflexivity.
Qed.

Lemma data_calls_cons (cb : Callback) (cbs : list Callback) :
  data_calls (cb :: cbs) =
  (match cb with OnTick => 1 | _ => 0 end + data_calls cbs)%nat.
Proof. destruct cb; reflexivity. Qed.

Lemma run_callbacks_samples (cbs : list Callback) :
  forall w : World F,
    let w' := run_callbacks cbs w in
    let n := data_calls cbs in
    (exists l, trace w' = trace w ++ l /\ sensor_reads l = (2 * n)%nat) /\
    adc_reads w' = (adc_reads w + 2 * n)%nat /\
    adc_input w' = adc_input w /\
    thermostat w' = thermostat w /\
    same_setup (sensor w') (sensor w) /\
    sensor w' =
      match n with
      | O => sensor w
      | S _ => readSensor (adc_input w (adc_reads w + 2 * n - 1)%nat)
                          (sensor w)
      end.
Proof.
  induction cbs as [|cb cbs IH]; intros w; cbn zeta.
  - cbn [run_callbacks fold_left data_calls filter length].
    repeat split; try lia. exists []. split; [symmetry; apply app_nil_r|].
    reflexivity.
  - rewrite run_callbacks_cons, data_calls_cons.
    destruct (IH (callback cb w))
      as ((l & Hl & Hr) & Hn & Hin & Hth & Hsame & Hs).
    cbn zeta in *.
    destruct (callback_trace cb w) as (l0 & Hl0).
    pose proof (callback_reads cb w) as Hr0.
    rewrite (new_events_app _ _ _ Hl0) in Hr0.
    pose proof (callback_effect cb w) as (Hth0 & Hin0 & Heff).
    set (m := data_calls cbs) in *.
    assert (Hsame0 : same_setup (sensor (callback cb w)) (sensor w)).
    { destruct cb; destruct Heff as (_ & Hs0 & _); rewrite Hs0.
      - apply same_setup_read.
      - repeat split.
      - repeat split. }
    split; [|split; [|split; [|split; [|split]]]].
    + exists (l0 ++ l). split.
      * rewrite Hl, Hl0, app_assoc. reflexivity.
      * rewrite sensor_reads_app, Hr, Hr0. destruct cb; lia.
    + rewrite Hn. destruct cb; destruct Heff as (Hn0 & _); rewrite Hn0; lia.
    + rewrite Hin. exact Hin0.
    + rewrite Hth. exact Hth0.
    + destruct Hsame as (A & B & C & D).
      destruct Hsame0 as (A0 & B0 & C0 & D0).
      repeat split; congruence.
    + rewrite Hs. destruct cb; destruct Heff as (Hn0 & Hs0 & _).
      * cbn [Nat.add]. destruct m as [|m'].
        -- rewrite Hs0. f_equal. f_equal. lia.
        -- rewrite Hin0, Hn0.
           rewrite (readSensor_same_setup _ _ _ Hsame0).
           f_equal. f_equal. lia.
      * cbn [Nat.add]. destruct m as [|m'].
        -- exact Hs0.
        -- rewrite Hin0, Hn0, Hs0. reflexivity.
      * cbn [Nat.add]. destruct m as [|m'].
        -- exact Hs0.
        -- rewrite Hin0, Hn0, Hs0. reflexivity.
Qed.

(** X9.  Over any sequence of handler calls, each call of the data handler
    takes two ADC samples and the heating handlers take none; the
    thermostat object is not written; and the sensor state at the end is
    the one a single read of the last sample taken gives from the initial
    state (the initial state itself if the data handler was never
    called). *)
Theorem handlers_sample_count (cbs : list Callback) (w : World F) :
  let w' := run_callbacks cbs w in
  let n := data_calls cbs in
  adc_reads w' = (adc_reads w + 2 * n)%nat /\
  sensor_reads (new_events w w') = (2 * n)%nat /\
  thermostat w' = thermostat w /\
  sensor w' =
    match n with
    | O => sensor w
    | S _ => readSensor (adc_input w (adc_reads w + 2 * n - 1)%nat) (sensor w)
    end.
Proof.
  cbn zeta.
  destruct (run_callbacks_samples cbs w)
    as ((l & Hl & Hr) & Hn & _ & Hth & _ & Hs).
  cbn zeta in *.
  rewrite (new_events_app _ _ _ Hl).
  repeat split; assumption.
Qed.
End HandlerSamples.

(** ** A sample at a supply rail, in IEEE arithmetic *)

Section RailFacts.
Variable lm : Libm.
Local Open Scope float_scope.

Lemma pos_finite_div_zero (x : float) :
  is_pos_finite x = true -> x / 0 = infinity.
Proof.
  unfold is_pos_finite. intros H. apply Prim2SF_inj. rewrite div_spec.
  destruct (Prim2SF x) as [sx|sx| |sx mx ex]; try discriminate.
  destruct sx; [discriminate|]. reflexivity.
Qed.

Lemma inf_div_pos_finite (y : float) :
  is_pos_finite y = true -> infinity / y = infinity.
Proof.
  unfold is_pos_finite. intros H. apply Prim2SF_inj. rewrite div_spec.
  destruct (Prim2SF y) as [sy|sy| |sy my ey]; try discriminate.
  destruct sy; [discriminate|]. reflexivity.
Qed.

Lemma zero_div_pos_finite (y : float) :
  is_pos_finite y = true -> 0 / y = 0.
Proof.
  unfold is_pos_finite. intros H. apply Prim2SF_inj. rewrite div_spec.
  destruct (Prim2SF y) as [sy|sy| |sy my ey]; try discriminate.
  destruct sy; [discriminate|]. reflexivity.
Qed.

Lemma sub_zero (x : float) : x - 0 = x.
Proof.
  apply Prim2SF_inj. rewrite sub_spec.
  destruct (Prim2SF x) as [sx|sx| |sx mx ex]; try reflexivity.
  destruct sx; reflexivity.
Qed.

(** What a [uint16_t] does to the special values the rails produce. *)
Lemma uint16_specials (b : Z) :
  is_uint16 b ->
  float_of_int b * 0 = 0 /\
  float_of_int b / infinity = 0 /\
  float_of_int b / neg_infinity = -0 /\
  (b <> 0%Z -> float_of_int b * infinity = infinity).
Proof.
  intros Hb.
  assert (H : (PrimFloat.Leibniz.eqb (float_of_int b * 0) 0 &&
               PrimFloat.Leibniz.eqb (float_of_int b / infinity) 0 &&
               PrimFloat.Leibniz.eqb (float_of_int b / neg_infinity) (-0) &&
               ((b =? 0)%Z ||
                PrimFloat.Leibniz.eqb (float_of_int b * infinity) infinity))%bool
              = true).
  { revert b Hb. apply all_uint16_spec. vm_compute. reflexivity. }
  rewrite !andb_true_iff, orb_true_iff, Z.eqb_eq in H.
  rewrite !FloatAxioms.Leibniz.eqb_spec in H.
  destruct H as (((H1 & H2) & H3) & H4).
  repeat split; try assumption.
  intros Hnz. destruct H4 as [H4|H4]; [contradiction|exact H4].
Qed.

(** X10.  A sample at a supply rail.  When the reconstructed voltage is 0,
    or equals the supply voltage so that the divisor [Vcc - vin] is 0, the
    read divides by zero; with [log] of the C standard ([log(+inf) = +inf],
    [log(+0) = -inf]) and a finite positive [Roo] it stores neither NaN nor
    an infinity but absolute zero: [tKelvin] is [+0] or [-0], [tCelsius] is
    [(float)(-273.15)] and [tFahrenheit] is [-459.66998...], in both
    wirings.  The resistance stored is 0 (NTC to ground at 0 V, NTC to
    supply at [Vcc]) or [+infinity] (the two other cases). *)
Theorem readSensor_at_rail (raw : Z) (s : NTCSensor float) :
  m_log lm infinity = infinity ->
  m_log lm 0 = neg_infinity ->
  is_uint16 (Rs (_ntc s)) -> Rs (_ntc s) <> 0%Z ->
  is_uint16 (beta (_ntc s)) ->
  is_pos_finite (Roo (_sData s)) = true ->
  let d' := _sData (readSensorF lm raw s) in
  (Vcc (_adc s) - vin d' = 0 /\ is_pos_finite (vin d') = true) \/
  (vin d' = 0 /\ is_pos_finite (Vcc (_adc s)) = true) ->
  PrimFloat.abs (tKelvin d') = 0 /\
  tCelsius d' = (-273.149993896484375) /\
  tFahrenheit d' = (-459.66998291015625) /\
  Rt d' = (if Bool.eqb (ntcToGround (_adc s))
                (PrimFloat.Leibniz.eqb (vin d') 0)
           then 0 else infinity).
Proof.
  intros Hinf Hzero HRs HRs0 Hb HRoo. cbn zeta. intros Hrail.
  destruct (readSensor_members (AF := float_arith lm) raw s)
    as (_ & _ & _ & Hk & HRt & HK & HC & HF).
  cbn zeta in Hk, HRt, HK, HC, HF.
  unfold spec_k in Hk. unfold spec_Rt in HRt. unfold spec_Tkelvin in HK.
  unfold spec_Tcelsius in HC. unfold spec_Tfahrenheit in HF.
  cbn [fadd fsub fmul fdiv flog of_int lit to_float float_arith] in *.
  destruct (uint16_specials _ HRs) as (Rz & _ & _ & Ri).
  destruct (uint16_specials _ Hb) as (_ & Bi & Bn & _).
  specialize (Ri HRs0).
  set (d' := _sData (readSensorF lm raw s)) in *.
  assert (Hcases :
    (Rt d' = infinity /\ tKelvin d' = 0 /\
     Bool.eqb (ntcToGround (_adc s)) (PrimFloat.Leibniz.eqb (vin d') 0)
     = false) \/
    (Rt d' = 0 /\ tKelvin d' = -0 /\
     Bool.eqb (ntcToGround (_adc s)) (PrimFloat.Leibniz.eqb (vin d') 0)
     = true)).
  { destruct Hrail as [[Hden Hpos]|[Hv HVcc]].
    - assert (Hnz : PrimFloat.Leibniz.eqb (vin d') 0 = false).
      { destruct (PrimFloat.Leibniz.eqb (vin d') 0) eqn:E; [|reflexivity].
        apply FloatAxioms.Leibniz.eqb_spec in E. rewrite E in Hpos.
        discriminate. }
      rewrite Hnz.
      rewrite Hden, (pos_finite_div_zero _ Hpos) in Hk.
      destruct (ntcToGround (_adc s)).
      + left. rewrite Hk, Ri in HRt.
        rewrite HRt, (inf_div_pos_finite _ HRoo), Hinf, Bi in HK.
        repeat split; assumption.
      + right. change (float_of_Q 1 / infinity) with 0 in Hk.
        rewrite Hk, Rz in HRt.
        rewrite HRt, (zero_div_pos_finite _ HRoo), Hzero, Bn in HK.
        repeat split; assumption.
    - assert (Hz : PrimFloat.Leibniz.eqb (vin d') 0 = true)
        by (rewrite Hv; reflexivity).
      rewrite Hz.
      rewrite Hv, sub_zero, (zero_div_pos_finite _ HVcc) in Hk.
      destruct (ntcToGround (_adc s)).
      + right. rewrite Hk, Rz in HRt.
        rewrite HRt, (zero_div_pos_finite _ HRoo), Hzero, Bn in HK.
        repeat split; assumption.
      + left. change (float_of_Q 1 / 0) with infinity in Hk.
        rewrite Hk, Ri in HRt.
        rewrite HRt, (inf_div_pos_finite _ HRoo), Hinf, Bi in HK.
        repeat split; assumption. }
  destruct Hcases as [(ER & EK & Ec)|(ER & EK & Ec)];
    rewrite Ec; rewrite EK in HC |- *;
    (assert (EC : tCelsius d' = (-273.149993896484375))
       by (rewrite HC; vm_compute; reflexivity));
    rewrite EC in HF;
    (split; [reflexivity|split; [exact EC|split; [|exact ER]]]);
    rewrite HF; vm_compute; reflexivity.
Qed.
End RailFacts.

(** The four-step ADC at full scale (sample 4, [vin = Vcc]) with the NTC
    to ground, reference libm. *)
Lemma readSensor_at_rail_witness :
  let s := NTCSensor_new (AF := ref_arith) ntcRs10k (adcFourSteps true)
             sensorData0 in
  let d' := _sData (readSensorF RefLibm.libm 4 s) in
  PrimFloat.abs (tKelvin d') = 0%float /\
  tCelsius d' = (-273.149993896484375)%float /\
  tFahrenheit d' = (-459.66998291015625)%float /\
  Rt d' = (if Bool.eqb (ntcToGround (_adc s))
                (PrimFloat.Leibniz.eqb (vin d') 0)
           then 0 else infinity)%float.
Proof.
  cbn zeta.
  apply (readSensor_at_rail RefLibm.libm 4
           (NTCSensor_new (AF := ref_arith) ntcRs10k (adcFourSteps true)
              sensorData0)).
  - reflexivity.
  - reflexivity.
  - unfold is_uint16. cbn. lia.
  - cbn. lia.
  - unfold is_uint16. cbn. lia.
  - vm_compute. reflexivity.
  - left. split; vm_compute; reflexivity.
Defined.

(** ** The BME280 sensor *)

Section BmeSetupFacts.
Context {F : Type} {AF : Arith F}.
Variable fpow : F -> F -> F.
Variable flogf : F -> F.
Variable begin : nat -> bool.

(** A first success after [i <= tries] failures leaves [tries - i]. *)
Lemma begin_loop_success (i : nat) :
  forall tries n,
    (i <= tries)%nat ->
    (forall j, (j < i)%nat -> begin (n + j) = false) ->
    begin (n + i) = true ->
    begin_loop begin tries n = ((tries - i)%nat, S (n + i)).
Proof.
  induction i as [|i IH]; intros tries n Hle Hfail Hok.
  - rewrite Nat.add_0_r in Hok.
    destruct tries; cbn [begin_loop]; rewrite Hok, ?Nat.add_0_r, ?Nat.sub_0_r;
      reflexivity.
  - destruct tries as [|tries]; [lia|].
    cbn [begin_loop].
    rewrite <- (Nat.add_0_r n) at 1. rewrite (Hfail 0%nat) by lia.
    rewrite (IH tries (S n)).
    + f_equal. lia.
    + lia.
    + intros j Hj. replace (S n + j)%nat with (n + S j)%nat by lia.
      apply Hfail. lia.
    + replace (S n + i)%nat with (n + S i)%nat by lia. exact Hok.
Qed.

(** [tries] failures in a row leave 0 after [tries + 1] calls, whatever
    the last call returns. *)
Lemma begin_loop_exhausted :
  forall tries n,
    (forall j, (j < tries)%nat -> begin (n + j) = false) ->
    begin_loop begin tries n = (0%nat, S (n + tries)).
Proof.
  intros tries n Hfail.
  destruct (begin (n + tries)) eqn:Hlast.
  - rewrite (begin_loop_success tries tries n); try assumption; try lia.
    f_equal. lia.
  - revert n Hfail Hlast.
    induction tries as [|tries IH]; intros n Hfail Hlast.
    + rewrite Nat.add_0_r in *. cbn [begin_loop]. rewrite Hlast. reflexivity.
    + cbn [begin_loop].
      rewrite <- (Nat.add_0_r n) at 1. rewrite (Hfail 0%nat) by lia.
      rewrite (IH (S n)).
      * f_equal. lia.
      * intros j Hj. replace (S n + j)%nat with (n + S j)%nat by lia.
        apply Hfail. lia.
      * replace (S n + tries)%nat with (n + S tries)%nat by lia.
        exact Hlast.
Qed.

(** X11.  [BME280Sensor::setup] calls [begin] until it succeeds, at most
    six times.  If the first success is among the first five calls, setup
    returns after that call and reads the sensor.  If the first five calls
    fail, setup makes a sixth call and then halts with "not found"
    whatever that call returns: a sensor that answers at the sixth call is
    still reported missing. *)
Theorem bme_setup_retries (r : BmeReadings F) (d : BmeData F) :
  (forall i, (i < 5)%nat -> begin i = true ->
             (forall j, (j < i)%nat -> begin j = false) ->
             bme_setup fpow flogf begin r d =
             SetupDone (S i) (_readSensor fpow flogf r d)) /\
  ((forall j, (j < 5)%nat -> begin j = false) ->
   bme_setup fpow flogf begin r d = SetupHalted 6) /\
  (exists n, (n <= 6)%nat /\
             (bme_setup fpow flogf begin r d = SetupHalted n \/
              exists d', bme_setup fpow flogf begin r d
                         = SetupDone n d')).
Proof.
  assert (Hok : forall i, (i < 5)%nat -> begin i = true ->
                  (forall j, (j < i)%nat -> begin j = false) ->
                  bme_setup fpow flogf begin r d =
                  SetupDone (S i) (_readSensor fpow flogf r d)).
  { intros i Hi Hb Hfail. unfold bme_setup.
    rewrite (begin_loop_success i 5 0); try assumption; try lia.
    cbn [Nat.add].
    destruct (Nat.leb_spec (5 - i) 0) as [H|H]; [lia|reflexivity]. }
  assert (Hno : (forall j, (j < 5)%nat -> begin j = false) ->
                bme_setup fpow flogf begin r d = SetupHalted 6).
  { intros Hfail. unfold bme_setup.
    rewrite (begin_loop_exhausted 5 0) by exact Hfail. reflexivity. }
  split; [exact Hok|split; [exact Hno|]].
  destruct (begin 0%nat) eqn:E0.
  { exists 1%nat. split; [lia|]. right. eexists.
    apply (Hok 0%nat); [lia|exact E0|intros j Hj; lia]. }
  destruct (begin 1%nat) eqn:E1.
  { exists 2%nat. split; [lia|]. right. eexists.
    apply (Hok 1%nat); [lia|exact E1|].
    intros j Hj. assert (j = 0)%nat by lia. subst. exact E0. }
  destruct (begin 2%nat) eqn:E2.
  { exists 3%nat. split; [lia|]. right. eexists.
    apply (Hok 2%nat); [lia|exact E2|].
    intros j Hj.
    destruct j as [|[|j]]; [exact E0|exact E1|lia]. }
  destruct (begin 3%nat) eqn:E3.
  { exists 4%nat. split; [lia|]. right. eexists.
    apply (Hok 3%nat); [lia|exact E3|].
    intros j Hj.
    destruct j as [|[|[|j]]]; [exact E0|exact E1|exact E2|lia]. }
  destruct (begin 4%nat) eqn:E4.
  { exists 5%nat. split; [lia|]. right. eexists.
    apply (Hok 4%nat); [lia|exact E4|].
    intros j Hj.
    destruct j as [|[|[|[|j]]]]; [exact E0|exact E1|exact E2|exact E3|lia]. }
  exists 6%nat. split; [lia|]. left. apply Hno.
  intros j Hj.
  destruct j as [|[|[|[|[|j]]]]];
    [exact E0|exact E1|exact E2|exact E3|exact E4|lia].
Qed.
End BmeSetupFacts.

Section BmeSeaLevel.
Variable lm : Libm.
Variable fpow : float -> float -> float.
Variable flogf : float -> float.
Local Open Scope float_scope.

(** X13.  In the arithmetic of the code, with [pow(1, y) = 1] as the C
    standard fixes it: when the altitude set for the BME280 is 0 (plus or
    minus zero), a read stores the normal pressure 1013.25 hPa exactly,
    whatever the driver returns, and leaves the altitude and the sea-level
    pressure as they were. *)
Theorem npLocal_at_sea_level (r : BmeReadings float) (d : BmeData float) :
  fpow 1 (float_of_Q 5.255) = 1 ->
  bme_altLocal d = 0 \/ bme_altLocal d = -0 ->
  let d' := _readSensor (AF := float_arith lm) fpow flogf r d in
  bme_npLocal d' = 1013.25 /\
  _calculateNpLocal (AF := float_arith lm) fpow d' = 1013.25 /\
  bme_altLocal d' = bme_altLocal d /\
  bme_pSeaLevel d' = bme_pSeaLevel d.
Proof.
  intros Hpow Halt. cbn zeta.
  assert (E : forall d0 : BmeData float,
             bme_altLocal d0 = bme_altLocal d ->
             _calculateNpLocal (AF := float_arith lm) fpow d0 = 1013.25).
  { intros d0 H0. unfold _calculateNpLocal.
    cbn [to_float fmul fsub fdiv lit float_arith]. rewrite H0.
    assert (E1 : float_of_Q 1 - bme_altLocal d / float_of_Q 44330 = 1)
      by (destruct Halt as [-> | ->]; vm_compute; reflexivity).
    rewrite E1, Hpow. vm_compute. reflexivity. }
  unfold _readSensor.
  cbn [bme_npLocal bme_altLocal bme_pSeaLevel].
  split; [apply E; reflexivity|].
  split; [apply E; reflexivity|].
  split; reflexivity.
Qed.
End BmeSeaLevel.

(** A read of 20.5 degrees, 40 % and 96000 Pa at altitude 0, with a [pow]
    that returns 1 at base 1 and a [logf] that returns 0. *)
Lemma npLocal_at_sea_level_witness :
  let fpow := fun x y : float => if PrimFloat.eqb x 1 then 1%float else x in
  let r := mkBmeReadings 96000%float 40%float 20.5%float in
  let d := mkBmeData 0%float 0%float 0%float 0%float 0%float 0%float
             0%float 1013.25%float in
  let d' := _readSensor (AF := ref_arith) fpow (fun _ => 0%float) r d in
  bme_npLocal d' = 1013.25%float /\
  _calculateNpLocal (AF := ref_arith) fpow d' = 1013.25%float /\
  bme_altLocal d' = bme_altLocal d /\
  bme_pSeaLevel d' = bme_pSeaLevel d.
Proof.
  cbn zeta.
  apply (npLocal_at_sea_level RefLibm.libm
           (fun x y : float => if PrimFloat.eqb x 1 then 1%float else x)
           (fun _ => 0%float)
           (mkBmeReadings 96000%float 40%float 20.5%float)
           (mkBmeData 0%float 0%float 0%float 0%float 0%float 0%float
              0%float 1013.25%float)).
  - vm_compute. reflexivity.
  - left. reflexivity.
Defined.

(** ** An ADC range of zero, in IEEE arithmetic *)

Section ZeroRange.
Variable lm : Libm.
Local Open Scope float_scope.

Lemma inf_add_finite (y : float) :
  is_finite_double y = true -> infinity + y = infinity.
Proof.
  unfold is_finite_double. intros H. apply Prim2SF_inj. rewrite add_spec.
  destruct (Prim2SF y) as [sy|sy| |sy my ey]; try discriminate; reflexivity.
Qed.

Lemma finite_sub_inf (x : float) :
  is_finite_double x = true -> x - infinity = neg_infinity.
Proof.
  unfold is_finite_double. intros H. apply Prim2SF_inj. rewrite sub_spec.
  destruct (Prim2SF x) as [sx|sx| |sx mx ex]; try discriminate; reflexivity.
Qed.

Lemma div_nan (x : float) : x / nan = nan.
Proof.
  apply Prim2SF_inj. rewrite div_spec.
  destruct (Prim2SF x) as [sx|sx| |sx mx ex]; reflexivity.
Qed.

Lemma mul_nan (x : float) : x * nan = nan.
Proof.
  apply Prim2SF_inj. rewrite mul_spec.
  destruct (Prim2SF x) as [sx|sx| |sx mx ex]; reflexivity.
Qed.

Lemma nan_div (y : float) : nan / y = nan.
Proof. apply Prim2SF_inj. rewrite div_spec. reflexivity. Qed.

Lemma nan_add (y : float) : nan + y = nan.
Proof. apply Prim2SF_inj. rewrite add_spec. reflexivity. Qed.

Lemma sub_nan (x : float) : x - nan = nan.
Proof.
  apply Prim2SF_inj. rewrite sub_spec.
  destruct (Prim2SF x) as [sx|sx| |sx mx ex]; reflexivity.
Qed.

(** X14.  An ADC range [Amax] of 0.  With finite voltages and a reference
    above the offset the volts per step are [+infinity], and every sample
    of every wiring stores NaN in [Rt] and in the three temperatures
    (with [log(NaN) = NaN], as the C standard has it): the sample 0
    through [0 * infinity], any other through [infinity / -infinity]. *)
Theorem readSensor_zero_Amax (raw : Z) (s : NTCSensor float) :
  m_log lm nan = nan ->
  Amax (_adc s) = 0%Z ->
  is_uint16 raw ->
  is_pos_finite (Vref (_adc s) - Voff (_adc s)) = true ->
  is_finite_double (Voff (_adc s)) = true ->
  is_finite_double (Vcc (_adc s)) = true ->
  let d' := _sData (readSensorF lm raw s) in
  v d' = infinity /\
  Rt d' = nan /\ tKelvin d' = nan /\ tCelsius d' = nan /\
  tFahrenheit d' = nan.
Proof.
  intros Hlog HA Hraw Hstep HVoff HVcc. cbn zeta.
  destruct (readSensor_members (AF := float_arith lm) raw s)
    as (_ & Hv & Hvin & Hk & HRt & HK & HC & HF).
  cbn zeta in Hv, Hvin, Hk, HRt, HK, HC, HF.
  unfold spec_v in Hv. unfold spec_vin in Hvin. unfold spec_k in Hk.
  unfold spec_Rt in HRt. unfold spec_Tkelvin in HK.
  unfold spec_Tcelsius in HC. unfold spec_Tfahrenheit in HF.
  cbn [fadd fsub fmul fdiv flog of_int lit to_float float_arith] in *.
  set (d' := _sData (readSensorF lm raw s)) in *.
  rewrite HA in Hv. change (float_of_int 0) with 0 in Hv.
  rewrite (pos_finite_div_zero _ Hstep) in Hv.
  assert (Hq : vin d' / (Vcc (_adc s) - vin d') = nan).
  { rewrite Hvin, Hv.
    destruct (Z.eq_dec raw 0) as [->|Hnz].
    - change (float_of_int 0 * infinity) with nan.
      rewrite nan_add. apply nan_div.
    - destruct (uint16_specials raw Hraw) as (_ & _ & _ & Hi).
      rewrite (Hi Hnz), (inf_add_finite _ HVoff),
        (finite_sub_inf _ HVcc).
      reflexivity. }
  assert (Ek : k d' = nan).
  { rewrite Hk, Hq. destruct (ntcToGround (_adc s)); [reflexivity|].
    apply div_nan. }
  assert (ER : Rt d' = nan) by (rewrite HRt, Ek; apply mul_nan).
  assert (EK : tKelvin d' = nan).
  { rewrite HK, ER, nan_div, Hlog, div_nan. reflexivity. }
  assert (EC : tCelsius d' = nan).
  { rewrite HC, EK. reflexivity. }
  assert (EF : tFahrenheit d' = nan).
  { rewrite HF, EC. reflexivity. }
  repeat split; assumption.
Qed.
End ZeroRange.

Lemma readSensor_zero_Amax_witness :
  let s := NTCSensor_new (AF := ref_arith) ntcRs10k
             (mkParamsADC PIN_ADC true 0 ADC_11db 3300 3200 130)%float
             sensorData0 in
  let d' := _sData (readSensorF RefLibm.libm 2027 s) in
  v d' = infinity /\
  Rt d' = nan /\ tKelvin d' = nan /\ tCelsius d' = nan /\
  tFahrenheit d' = nan.
Proof.
  cbn zeta.
  apply (readSensor_zero_Amax RefLibm.libm 2027
           (NTCSensor_new (AF := ref_arith) ntcRs10k
              (mkParamsADC PIN_ADC true 0 ADC_11db 3300 3200 130)%float
              sensorData0)).
  - reflexivity.
  - reflexivity.
  - unfold is_uint16. lia.
  - vm_compute. reflexivity.
  - vm_compute. reflexivity.
  - vm_compute. reflexivity.
Defined.
